(** * pasimple: a shallow embedding of the PulseAudio simple-API wrapper

    The development follows the two modules of the package:

    - [pasimple/__init__.py]: the stream-direction and sample-format
      constants, the two lookup dictionaries and [width2format] /
      [format2width];
    - [pasimple/pa_simple.py]: the lazily loaded library handle
      ([get_libpulse_simple]), the two ctypes structures and the class
      [PaSimple].

    Python integers are [Z], [bytes] / [bytearray] values are [list byte],
    [str] values are [string], [None]-able values are [option].  The two
    dictionaries are [gmap Z Z].  A Python call either returns or raises,
    so every operation yields a [result]; the mutable state (the module
    global [_libpulse_simple], the attributes of the [PaSimple] object and
    the record of calls that crossed the ctypes boundary) is threaded
    explicitly by a small state-and-exception monad.  A state change made
    before a [raise] survives it, as in Python.

    The shared library itself is outside the package.  It is represented
    by an oracle [Native] that answers each foreign call from the history
    of boundary calls made so far; the theorems hold for every oracle.
    A library that loads is assumed to export the [pa_simple_*] entry
    points, and memory is unbounded ([bytearray n] succeeds for
    every [n >= 0]).  The integers handed to a foreign function are
    taken to lie within 64 bits (beyond that ctypes raises
    [ArgumentError] instead of making the call). *)

From Stdlib Require Import ZArith String List Bool Lia.
From Stdlib Require Import Init.Byte DecimalString.
From stdpp Require Import base strings gmap.

Open Scope Z_scope.

(** ** Python results *)

(** Modelled from the spec: the exception class [PaSimpleError], which
    [pasimple/exceptions.py] declares and which is not among the sources.
    Every error of the package is an instance of it, told apart by its
    message.  The other constructors are the Python built-ins that the
    modelled statements can raise. *)
Inductive exn : Type :=
| PaSimpleError (msg : string)
| KeyError (key : Z)
| TypeError (msg : string)
| ValueError (msg : string)
| AttributeError (msg : string).

Inductive result (A : Type) : Type :=
| Return (a : A)
| Raise (e : exn).
Arguments Return {A} a.
Arguments Raise {A} e.

(** [str(n)] for an integer [n], as used by the f-strings. *)
Definition str (n : Z) : string := NilZero.string_of_int (Z.to_int n).

(** ** pasimple/__init__.py *)

Definition PA_STREAM_PLAYBACK : Z := 1.
Definition PA_STREAM_RECORD : Z := 2.

Definition PA_SAMPLE_U8 : Z := 0.
Definition PA_SAMPLE_ALAW : Z := 1.
Definition PA_SAMPLE_ULAW : Z := 2.
Definition PA_SAMPLE_S16LE : Z := 3.
Definition PA_SAMPLE_S16BE : Z := 4.
Definition PA_SAMPLE_FLOAT32LE : Z := 5.
Definition PA_SAMPLE_FLOAT32BE : Z := 6.
Definition PA_SAMPLE_S32LE : Z := 7.
Definition PA_SAMPLE_S32BE : Z := 8.
Definition PA_SAMPLE_S24LE : Z := 9.
Definition PA_SAMPLE_S24BE : Z := 10.
Definition PA_SAMPLE_S24_32LE : Z := 11.
Definition PA_SAMPLE_S24_32BE : Z := 12.

(** The thirteen sample formats the module defines, in declaration order. *)
Definition sample_formats : list Z :=
  [ PA_SAMPLE_U8; PA_SAMPLE_ALAW; PA_SAMPLE_ULAW; PA_SAMPLE_S16LE;
    PA_SAMPLE_S16BE; PA_SAMPLE_FLOAT32LE; PA_SAMPLE_FLOAT32BE;
    PA_SAMPLE_S32LE; PA_SAMPLE_S32BE; PA_SAMPLE_S24LE; PA_SAMPLE_S24BE;
    PA_SAMPLE_S24_32LE; PA_SAMPLE_S24_32BE ].

(** Maps sample widths to their most common audio formats. *)
Definition LOOKUP_FORMAT_BY_WIDTH : gmap Z Z :=
  {[ 1 := PA_SAMPLE_U8;
     2 := PA_SAMPLE_S16LE;
     3 := PA_SAMPLE_S24LE;
     4 := PA_SAMPLE_S32LE ]}.

(** Maps audio formats to their sample widths. *)
Definition LOOKUP_WIDTH_BY_FORMAT : gmap Z Z :=
  {[ PA_SAMPLE_U8 := 1;
     PA_SAMPLE_ALAW := 1;
     PA_SAMPLE_ULAW := 1;
     PA_SAMPLE_S16LE := 2;
     PA_SAMPLE_S16BE := 2;
     PA_SAMPLE_FLOAT32LE := 4;
     PA_SAMPLE_FLOAT32BE := 4;
     PA_SAMPLE_S32LE := 4;
     PA_SAMPLE_S32BE := 4;
     PA_SAMPLE_S24LE := 3;
     PA_SAMPLE_S24BE := 3;
     PA_SAMPLE_S24_32LE := 4;
     PA_SAMPLE_S24_32BE := 4 ]}.

(** [d[k]] on a Python dict: the value, or [KeyError(k)]. *)
Definition getitem (d : gmap Z Z) (k : Z) : result Z :=
  match d !! k with
  | Some v => Return v
  | None => Raise (KeyError k)
  end.

Definition width2format (sample_width : Z) : result Z :=
  getitem LOOKUP_FORMAT_BY_WIDTH sample_width.

Definition format2width (audio_format : Z) : result Z :=
  getitem LOOKUP_WIDTH_BY_FORMAT audio_format.

(** ** The ctypes values used by pasimple/pa_simple.py *)

(** Storing a Python integer in a ctypes integer (a structure field or a
    simple object) keeps its low bits, without a range check. *)
Definition c_uint32 (v : Z) : Z := v mod 2 ^ 32.
Definition c_uint8 (v : Z) : Z := v mod 2 ^ 8.
Definition c_int (v : Z) : Z := (v + 2 ^ 31) mod 2 ^ 32 - 2 ^ 31.

(** A Python int passed to a foreign function that has no [argtypes]
    (the direction, [num_bytes], [len(data)]) is converted to a C int:
    the library receives its low 32 bits, read as a signed number.  A
    value from -2^31 to 2^31 - 1 arrives as it is. *)
Definition int_arg (v : Z) : Z := c_int v.

(** Struct describing the audio encoding for the pulse server.
    (The fields are [format], [rate], [channels] in the source; they carry
    a prefix here because [PaSimple] has methods of the same names.) *)
Record pa_sample_spec_struct : Type := {
  ss_format : Z;    (* ctypes.c_int *)
  ss_rate : Z;      (* ctypes.c_uint32 *)
  ss_channels : Z   (* ctypes.c_uint8 *)
}.

Definition pa_sample_spec (format rate channels : Z) : pa_sample_spec_struct :=
  {| ss_format := c_int format;
     ss_rate := c_uint32 rate;
     ss_channels := c_uint8 channels |}.

(** Struct describing playback and record buffer metrics. *)
Record pa_buffer_attr_struct : Type := {
  maxlength : Z;    (* ctypes.c_uint32 *)
  tlength : Z;      (* ctypes.c_uint32 *)
  prebuf : Z;       (* ctypes.c_uint32 *)
  minreq : Z;       (* ctypes.c_uint32 *)
  fragsize : Z      (* ctypes.c_uint32 *)
}.

Definition pa_buffer_attr (maxlength tlength prebuf minreq fragsize : Z)
  : pa_buffer_attr_struct :=
  {| maxlength := c_uint32 maxlength;
     tlength := c_uint32 tlength;
     prebuf := c_uint32 prebuf;
     minreq := c_uint32 minreq;
     fragsize := c_uint32 fragsize |}.

(** [ctypes.c_void_p(p)]: [None] is the null pointer. *)
Definition c_void_p (p : option Z) : Z := default 0 p.

(** What a foreign function declared with [restype = c_void_p] hands back
    to Python: [None] for a null pointer, the address otherwise. *)
Definition c_void_p_result (p : Z) : option Z :=
  if p =? 0 then None else Some p.

(** [bytearray(n)]: [n] zero bytes, [ValueError] for a negative count. *)
Definition bytearray (n : Z) : result (list byte) :=
  if n <? 0 then Raise (ValueError "negative count")
  else Return (repeat x00 (Z.to_nat n)).

(** [ctypes.c_char * n]: the array type of length [n]. *)
Definition c_char_array (n : Z) : result Z :=
  if n <? 0 then Raise (ValueError "Array length must be >= 0")
  else Return n.

(** [from_buffer] shares the bytearray's memory with the foreign function,
    which overwrites it in place: the bytes the function stored replace
    the leading bytes of the buffer and the length of the bytearray
    stays what it was. *)
Definition fill_buffer (buf stored : list byte) : list byte :=
  firstn (length buf) (stored ++ skipn (length stored) buf).

(** Python objects that the latency query compares and reads. *)
Inductive pyobj : Type :=
| PyInt (n : Z)          (* an int *)
| CInt (value : Z).      (* a ctypes.c_int instance holding [value] *)

(** [a != n] for an int [n].  Between ints it compares the numbers.  A
    ctypes simple object defines no [__eq__], so the comparison falls
    back to object identity, and no ctypes object is the int [n]. *)
Definition py_ne_int (a : pyobj) (n : Z) : bool :=
  match a with
  | PyInt m => negb (m =? n)
  | CInt _ => true
  end.

(** [a.value]: defined on ctypes simple objects, not on ints. *)
Definition getattr_value (a : pyobj) : result Z :=
  match a with
  | CInt v => Return v
  | PyInt _ => Raise (AttributeError "'int' object has no attribute 'value'")
  end.

(** The attributes of the loaded [ctypes.CDLL] object that the module
    configures.  A fresh CDLL resolves every attribute to a foreign
    function whose [restype] is [c_int]. *)
Inductive restype : Type := restype_c_int | restype_c_void_p.
Inductive attribute : Type :=
| foreign_function        (* the symbol of the shared library *)
| c_ulonglong_class.      (* the class [ctypes.c_ulonglong] *)

Record CDLL : Type := {
  pa_simple_new_restype : restype;
  pa_simple_get_latency_attr : attribute
}.

Definition CDLL_fresh : CDLL :=
  {| pa_simple_new_restype := restype_c_int;
     pa_simple_get_latency_attr := foreign_function |}.

(** ** The ctypes boundary *)

(** The arguments of [pa_simple_new] (the channel map is always NULL and
    the error pointer is an out-parameter). *)
Record new_args : Type := {
  arg_server_name : option string;
  arg_app_name : string;
  arg_direction : Z;
  arg_device_name : option string;
  arg_stream_name : string;
  arg_sample_spec : pa_sample_spec_struct;
  arg_buffer_attr : pa_buffer_attr_struct
}.

(** One entry per call that reaches the dynamic loader or the library,
    with the arguments as the library receives them. *)
Inductive event : Type :=
| CDLL_call                                   (* ctypes.CDLL('libpulse-simple.so.0') *)
| pa_simple_new_call (a : new_args)
| pa_simple_free_call (s : Z)
| pa_simple_read_call (s : Z) (bytes : Z)
| pa_simple_write_call (s : Z) (data : list byte) (bytes : Z)
| pa_simple_drain_call (s : Z)
| pa_simple_flush_call (s : Z)
| pa_simple_get_latency_call (s : Z).

(** The library as an oracle.  Every answer may depend on the history of
    boundary calls (most recent first).  [lib_CDLL] answers [None] when
    the library loads and [Some (cls, text)] when [ctypes.CDLL] raises an
    [OSError] whose class is named [cls] and whose message is [text].
    The other functions give the C return value and the value left in
    the [int *error] out-parameter (0 when the library leaves it alone);
    [lib_read] also gives the bytes stored in the caller's buffer. *)
Record Native : Type := {
  lib_CDLL : list event -> option (string * string);
  lib_new : list event -> new_args -> Z * Z;
  lib_read : list event -> Z -> Z -> Z * Z * list byte;
  lib_write : list event -> Z -> list byte -> Z -> Z * Z;
  lib_drain : list event -> Z -> Z * Z;
  lib_flush : list event -> Z -> Z * Z;
  lib_get_latency : list event -> Z -> Z * Z
}.

(** The process state outside any one stream: the module global and the
    boundary calls made so far (most recent first). *)
Record World : Type := {
  _libpulse_simple : option CDLL;
  trace : list event
}.

Definition log (e : event) (w : World) : World :=
  {| _libpulse_simple := _libpulse_simple w; trace := e :: trace w |}.

(** The state at import time. *)
Definition World_initial : World :=
  {| _libpulse_simple := None; trace := [] |}.

(** ** State and exceptions *)

Definition M (S A : Type) : Type := S -> result A * S.

Definition ret {S A : Type} (a : A) : M S A := fun s => (Return a, s).
Definition raise {S A : Type} (e : exn) : M S A := fun s => (Raise e, s).
Definition bind {S A B : Type} (m : M S A) (k : A -> M S B) : M S B :=
  fun s => match m s with
           | (Return a, s') => k a s'
           | (Raise e, s') => (Raise e, s')
           end.
(** A pure computation that may raise. *)
Definition lift_result {S A : Type} (r : result A) : M S A := fun s => (r, s).

Declare Scope py_scope.
Delimit Scope py_scope with py.
Notation "x <- m ;; k" := (bind m (fun x => k))
  (at level 100, m at next level, right associativity) : py_scope.
Notation "m ;;; k" := (bind m (fun _ => k))
  (at level 100, right associativity) : py_scope.
Open Scope py_scope.

(** ** pasimple/pa_simple.py *)

(** The attributes of a [PaSimple] object.  [_stream] is what
    [pa_simple_new] returned ([None] until then). *)
Record PaSimple_obj : Type := {
  _direction : Z;
  _format : Z;
  _channels : Z;
  _rate : Z;
  _stream_alive : bool;
  _stream : option Z
}.

(** The messages of the two misuse errors and of the direction gate. *)
Definition closed_stream_msg : string :=
  "Cannot perform operation on closed stream".
Definition not_recording_msg : string :=
  "Stream was not initialized for recording".
Definition not_playback_msg : string :=
  "Stream was not initialized for playback".

(** The values a method call hands back to its caller. *)
Inductive value : Type :=
| VNone
| VInt (n : Z)
| VBytes (b : list byte)
| VSelf.

(** The methods a caller can invoke on a stream. *)
Inductive op : Type :=
| call_close
| call_enter
| call_exit
| call_direction
| call_format
| call_channels
| call_rate
| call_read (num_bytes : Z)
| call_write (data : list byte)
| call_drain
| call_flush
| call_get_latency.

Section WithNative.

Variable N : Native.

(** The C library interface is stored in a global variable and is only
    initialized when needed. *)
Definition get_libpulse_simple : M World CDLL :=
  fun w =>
    match _libpulse_simple w with
    | None =>
        (* try: _libpulse_simple = ctypes.CDLL('libpulse-simple.so.0') *)
        match lib_CDLL N (trace w) with
        | Some (cls, text) =>
            (* except OSError as err *)
            (Raise (PaSimpleError ("<class '" +:+ cls +:+ "'>: " +:+ text)%string),
             log CDLL_call w)
        | None =>
            let lib := CDLL_fresh in
            (* _libpulse_simple.pa_simple_new.restype = ctypes.c_void_p *)
            let lib :=
              {| pa_simple_new_restype := restype_c_void_p;
                 pa_simple_get_latency_attr := pa_simple_get_latency_attr lib |} in
            (* _libpulse_simple.pa_simple_get_latency = ctypes.c_ulonglong *)
            let lib :=
              {| pa_simple_new_restype := pa_simple_new_restype lib;
                 pa_simple_get_latency_attr := c_ulonglong_class |} in
            (Return lib,
             {| _libpulse_simple := Some lib; trace := CDLL_call :: trace w |})
        end
    | Some lib => (Return lib, w)
    end.

(** *** Foreign calls: ask the oracle, record the call. *)

Definition pa_simple_new (lib : CDLL) (a : new_args) : M World (option Z * Z) :=
  fun w =>
    let '(p, error) := lib_new N (trace w) a in
    let r := match pa_simple_new_restype lib with
             | restype_c_void_p => c_void_p_result p
             | restype_c_int => Some (c_int p)
             end in
    (Return (r, error), log (pa_simple_new_call a) w).

Definition pa_simple_free (s : Z) : M World unit :=
  fun w => (Return tt, log (pa_simple_free_call s) w).

Definition pa_simple_read (s : Z) (rec_buffer : list byte) (bytes : Z)
  : M World (Z * Z * list byte) :=
  fun w =>
    let '(ok, error, stored) := lib_read N (trace w) s (int_arg bytes) in
    (Return (ok, error, fill_buffer rec_buffer stored),
     log (pa_simple_read_call s (int_arg bytes)) w).

Definition pa_simple_write (s : Z) (data : list byte) (bytes : Z)
  : M World (Z * Z) :=
  fun w => (Return (lib_write N (trace w) s data (int_arg bytes)),
            log (pa_simple_write_call s data (int_arg bytes)) w).

Definition pa_simple_drain (s : Z) : M World (Z * Z) :=
  fun w => (Return (lib_drain N (trace w) s), log (pa_simple_drain_call s) w).

Definition pa_simple_flush (s : Z) : M World (Z * Z) :=
  fun w => (Return (lib_flush N (trace w) s), log (pa_simple_flush_call s) w).

(** Calling the attribute [pa_simple_get_latency] of the library object
    with two positional arguments.  When the attribute is the class
    [ctypes.c_ulonglong] the call is a constructor call, and a ctypes
    simple type accepts at most one argument. *)
Definition pa_simple_get_latency (lib : CDLL) (s : Z) : M World (pyobj * Z) :=
  match pa_simple_get_latency_attr lib with
  | c_ulonglong_class =>
      raise (TypeError "__init__ expected at most 1 argument, got 2")
  | foreign_function =>
      fun w =>
        let '(latency, error) := lib_get_latency N (trace w) s in
        (Return (PyInt (c_int latency), error),
         log (pa_simple_get_latency_call s) w)
  end.

(** *** class PaSimple

    A method runs on the pair of the object's attributes and the
    process state. *)

Definition method (A : Type) : Type := M (PaSimple_obj * World) A.

Definition self : method PaSimple_obj := fun st => (Return (fst st), st).

Definition world {A : Type} (m : M World A) : method A :=
  fun st => let '(r, w) := m (snd st) in (r, (fst st, w)).

Definition set_stream_alive (b : bool) : method unit :=
  fun st =>
    let o := fst st in
    (Return tt,
     ({| _direction := _direction o; _format := _format o;
         _channels := _channels o; _rate := _rate o;
         _stream_alive := b; _stream := _stream o |}, snd st)).

Definition set_stream (p : option Z) : method unit :=
  fun st =>
    let o := fst st in
    (Return tt,
     ({| _direction := _direction o; _format := _format o;
         _channels := _channels o; _rate := _rate o;
         _stream_alive := _stream_alive o; _stream := p |}, snd st)).

Definition set_encoding (direction format channels rate : Z) : method unit :=
  fun st =>
    let o := fst st in
    (Return tt,
     ({| _direction := direction; _format := format;
         _channels := channels; _rate := rate;
         _stream_alive := _stream_alive o; _stream := _stream o |}, snd st)).

(** Initialize a pulseaudio simple API stream. *)
Definition __init__ (direction format channels rate : Z)
    (app_name : string) (stream_name server_name device_name : option string)
    (maxlength tlength prebuf minreq fragsize : Z) : method unit :=
  (* Save audio encoding properties *)
  set_encoding direction format channels rate ;;;
  (* If no stream_name is specified, use the app_name *)
  let stream_name := default app_name stream_name in
  (* Prepare arguments for initializing a pulseaudio stream *)
  let sample_spec := pa_sample_spec format rate channels in
  let buffer_attr := pa_buffer_attr maxlength tlength prebuf minreq fragsize in
  let args :=
    {| arg_server_name := server_name;
       arg_app_name := app_name;
       arg_direction := int_arg direction;
       arg_device_name := device_name;
       arg_stream_name := stream_name;
       arg_sample_spec := sample_spec;
       arg_buffer_attr := buffer_attr |} in
  (* Initialize the stream.
     Keep track of the underlying stream's state to avoid double frees *)
  set_stream_alive false ;;;
  lib <- world get_libpulse_simple ;;
  r <- world (pa_simple_new lib args) ;;
  set_stream (fst r) ;;;
  match fst r with
  | None =>
      raise (PaSimpleError ("Error while creating stream: " +:+ str (snd r)))
  | Some _ => set_stream_alive true
  end.

(** Close the underlying stream and free resources. *)
Definition close : method unit :=
  o <- self ;;
  if _stream_alive o then
    set_stream_alive false ;;;
    lib <- world get_libpulse_simple ;;
    world (pa_simple_free (c_void_p (_stream o)))
  else ret tt.

(** Context manager - enter. *)
Definition __enter__ : method PaSimple_obj := self.

(** Context manager - exit. *)
Definition __exit__ : method unit := close.

(** Get the direction specified in the constructor. *)
Definition direction : method Z := o <- self ;; ret (_direction o).

(** Get the audio format specified in the constructor. *)
Definition format : method Z := o <- self ;; ret (_format o).

(** Get the audio channels specified in the constructor. *)
Definition channels : method Z := o <- self ;; ret (_channels o).

(** Get the audio rate specified in the constructor. *)
Definition rate : method Z := o <- self ;; ret (_rate o).

(** Record data from the PulseAudio server. *)
Definition read (num_bytes : Z) : method (list byte) :=
  o <- self ;;
  if negb (_stream_alive o) then
    raise (PaSimpleError closed_stream_msg)
  else if negb (_direction o =? PA_STREAM_RECORD) then
    raise (PaSimpleError not_recording_msg)
  else
    rec_buffer <- lift_result (bytearray num_bytes) ;;
    rec_buffer_ptr <- lift_result (c_char_array num_bytes) ;;
    lib <- world get_libpulse_simple ;;
    r <- world (pa_simple_read (c_void_p (_stream o)) rec_buffer num_bytes) ;;
    let '(ok, error, rec_buffer) := r in
    if negb (ok =? 0) then
      raise (PaSimpleError ("Could not record audio, error code: " +:+ str error))
    else ret rec_buffer.

(** Play audio via the PulseAudio server. *)
Definition write (data : list byte) : method unit :=
  o <- self ;;
  if negb (_stream_alive o) then
    raise (PaSimpleError closed_stream_msg)
  else if negb (_direction o =? PA_STREAM_PLAYBACK) then
    raise (PaSimpleError not_playback_msg)
  else
    lib <- world get_libpulse_simple ;;
    r <- world (pa_simple_write (c_void_p (_stream o)) data
                  (Z.of_nat (length data))) ;;
    let '(ok, error) := r in
    if negb (ok =? 0) then
      raise (PaSimpleError ("Could not play audio, error code: " +:+ str error))
    else ret tt.

(** Blocks until all remaining data in the buffer has been played. *)
Definition drain : method unit :=
  o <- self ;;
  if negb (_stream_alive o) then
    raise (PaSimpleError closed_stream_msg)
  else if negb (_direction o =? PA_STREAM_PLAYBACK) then
    raise (PaSimpleError not_playback_msg)
  else
    lib <- world get_libpulse_simple ;;
    r <- world (pa_simple_drain (c_void_p (_stream o))) ;;
    let '(ok, error) := r in
    if negb (ok =? 0) then
      raise (PaSimpleError ("Could not drain, error code: " +:+ str error))
    else ret tt.

(** Discards any data in the record/playback buffers. *)
Definition flush : method unit :=
  o <- self ;;
  if negb (_stream_alive o) then
    raise (PaSimpleError closed_stream_msg)
  else
    lib <- world get_libpulse_simple ;;
    r <- world (pa_simple_flush (c_void_p (_stream o))) ;;
    let '(ok, error) := r in
    if negb (ok =? 0) then
      raise (PaSimpleError ("Could not flush, error code: " +:+ str error))
    else ret tt.

(** Get the record/playback latency reported by PulseAudio in
    microseconds. *)
Definition get_latency : method Z :=
  o <- self ;;
  if negb (_stream_alive o) then
    raise (PaSimpleError closed_stream_msg)
  else
    lib <- world get_libpulse_simple ;;
    r <- world (pa_simple_get_latency lib (c_void_p (_stream o))) ;;
    let '(latency, error) := r in
    (* if error != 0: [error] is the c_int object, not its value *)
    if py_ne_int (CInt error) 0 then
      raise (PaSimpleError ("Could not get latency, error code: " +:+ str error))
    else lift_result (getattr_value latency).

(** *** Callers *)

(** An object before [__init__] has run: its attributes are not set yet
    ([__init__] assigns the four encoding attributes and the alive flag
    before anything can raise). *)
Definition blank : PaSimple_obj :=
  {| _direction := 0; _format := 0; _channels := 0; _rate := 0;
     _stream_alive := false; _stream := None |}.

(** The constructor expression [PaSimple(...)]: the caller receives the
    object only when [__init__] returns. *)
Definition PaSimple (direction format channels rate : Z)
    (app_name : string) (stream_name server_name device_name : option string)
    (maxlength tlength prebuf minreq fragsize : Z) : M World PaSimple_obj :=
  fun w =>
    match __init__ direction format channels rate app_name stream_name
            server_name device_name maxlength tlength prebuf minreq fragsize
            (blank, w) with
    | (Return _, (o, w')) => (Return o, w')
    | (Raise e, (_, w')) => (Raise e, w')
    end.

(** One method call, with its result as a [value]. *)
Definition call (c : op) : method value :=
  match c with
  | call_close => close ;;; ret VNone
  | call_enter => __enter__ ;;; ret VSelf
  | call_exit => __exit__ ;;; ret VNone
  | call_direction => v <- direction ;; ret (VInt v)
  | call_format => v <- format ;; ret (VInt v)
  | call_channels => v <- channels ;; ret (VInt v)
  | call_rate => v <- rate ;; ret (VInt v)
  | call_read n => b <- read n ;; ret (VBytes b)
  | call_write data => write data ;;; ret VNone
  | call_drain => drain ;;; ret VNone
  | call_flush => flush ;;; ret VNone
  | call_get_latency => v <- get_latency ;; ret (VInt v)
  end.

(** A caller that invokes one method after the other on the same
    stream, going on after an exception; the state after the last call. *)
Fixpoint run (cs : list op) (st : PaSimple_obj * World) : PaSimple_obj * World :=
  match cs with
  | [] => st
  | c :: cs' => run cs' (snd (call c st))
  end.

End WithNative.

(** The handles passed to [pa_simple_free] in a history, most recent
    first: one entry per call. *)
Fixpoint frees (t : list event) : list Z :=
  match t with
  | [] => []
  | pa_simple_free_call s :: t' => s :: frees t'
  | _ :: t' => frees t'
  end.

(** The number of attempts to load the library in a history. *)
Fixpoint loads (t : list event) : nat :=
  match t with
  | [] => 0%nat
  | CDLL_call :: t' => S (loads t')
  | _ :: t' => loads t'
  end.

(** ** Test doubles for the library *)

(** A library that loads, opens every stream at address 4096, records
    the byte [0x2a] over and over, accepts every write, drain and flush
    and reports a latency of 1500 microseconds with error code 0. *)
Definition fake_native : Native :=
  {| lib_CDLL := fun _ => None;
     lib_new := fun _ _ => (4096, 0);
     lib_read := fun _ _ n => (0, 0, repeat x2a (Z.to_nat n));
     lib_write := fun _ _ _ _ => (0, 0);
     lib_drain := fun _ _ => (0, 0);
     lib_flush := fun _ _ => (0, 0);
     lib_get_latency := fun _ _ => (1500, 0) |}.

(** The same library, except that the first attempt to load it fails. *)
Definition fail_once_native : Native :=
  {| lib_CDLL := fun t =>
       match loads t with
       | O => Some ("OSError",
                    "libpulse-simple.so.0: cannot open shared object file")
       | S _ => None
       end;
     lib_new := lib_new fake_native;
     lib_read := lib_read fake_native;
     lib_write := lib_write fake_native;
     lib_drain := lib_drain fake_native;
     lib_flush := lib_flush fake_native;
     lib_get_latency := lib_get_latency fake_native |}.

(** [PaSimple(direction, format, channels, rate)] with every optional
    parameter at its default. *)
Definition PaSimple_defaults (N : Native) (direction format channels rate : Z)
  : M World PaSimple_obj :=
  PaSimple N direction format channels rate "python" None None None
    (-1) (-1) (-1) (-1) (-1).

(** A record stream and a playback stream opened on the test double in a
    fresh process, and the same streams after [close()]. *)
Definition open_stream (direction : Z) : PaSimple_obj * World :=
  match PaSimple_defaults fake_native direction PA_SAMPLE_S32LE 1 44100
          World_initial with
  | (Return o, w) => (o, w)
  | (Raise _, w) => (blank, w)
  end.

Definition closed_stream (direction : Z) : PaSimple_obj * World :=
  run fake_native [call_close] (open_stream direction).

(** ** Scoped use of a stream *)

(** [with ctor as pa: body].  [__enter__] hands back the object itself;
    [__exit__] runs on every way out of the body and returns [None], so
    an exception of the body goes on to the caller, unless [__exit__]
    raises one of its own. *)
Definition with_PaSimple {A : Type} (N : Native)
    (ctor : M World PaSimple_obj) (body : method A) : M World A :=
  fun w =>
    match ctor w with
    | (Raise e, w1) => (Raise e, w1)
    | (Return pa, w1) =>
        match __enter__ (pa, w1) with
        | (Raise e, st1) => (Raise e, snd st1)
        | (Return _, st1) =>
            let '(r, st2) := body st1 in
            match __exit__ N st2 with
            | (Raise e', st3) => (Raise e', snd st3)
            | (Return _, st3) => (r, snd st3)
            end
        end
    end.

(** A body that uses the stream without closing it: it leaves the
    object's attributes alone, frees nothing and does not unload the
    library. *)
Definition uses_stream_only {A : Type} (body : method A) : Prop :=
  forall st : PaSimple_obj * World,
    fst (snd (body st)) = fst st /\
    frees (trace (snd (snd (body st)))) = frees (trace (snd st)) /\
    (is_Some (_libpulse_simple (snd st)) ->
     is_Some (_libpulse_simple (snd (snd (body st))))).

(** The handles passed to the library in a history, one entry per call
    that takes a stream. *)
Fixpoint handles (t : list event) : list Z :=
  match t with
  | [] => []
  | CDLL_call :: t' => handles t'
  | pa_simple_new_call _ :: t' => handles t'
  | pa_simple_free_call s :: t' => s :: handles t'
  | pa_simple_read_call s _ :: t' => s :: handles t'
  | pa_simple_write_call s _ _ :: t' => s :: handles t'
  | pa_simple_drain_call s :: t' => s :: handles t'
  | pa_simple_flush_call s :: t' => s :: handles t'
  | pa_simple_get_latency_call s :: t' => s :: handles t'
  end.

(** ** The file adapters of pasimple/__init__.py *)

(** The [wave] module of the standard library is outside the package,
    like the sound library.  A file opened for reading is the four
    values [play_wav] asks it for ([frames] is
    [readframes(getnframes())]); its getters and its [close] are taken
    not to raise.  A file opened for writing is followed call by call:
    the oracle [wave_raises] says, from the calls made so far (most
    recent first), whether the next call raises, and with which
    exception class and text. *)
Record Wave_read : Type := {
  getsampwidth : Z;
  getnchannels : Z;
  getframerate : Z;
  frames : list byte
}.

Inductive wave_event : Type :=
| wave_open_wb (file_path : string)          (* wave.open(file_path, 'wb') *)
| wave_setsampwidth (sampwidth : Z)
| wave_setnchannels (nchannels : Z)
| wave_setframerate (framerate : Z)
| wave_writeframes (data : list byte)
| wave_close.                                (* Wave_write.__exit__ *)

Record Wave : Type := {
  wave_open_rb : string -> Wave_read + string * string;
  wave_raises : list wave_event -> wave_event -> option (string * string)
}.

(** How a file adapter ends: it returns, it raises an exception of the
    stream code, or an exception of the [wave] module passes through. *)
Inductive outcome (A : Type) : Type :=
| Returned (a : A)
| Raised (e : exn)
| WaveRaised (cls text : string).
Arguments Returned {A} a.
Arguments Raised {A} e.
Arguments WaveRaised {A} cls text.

Definition outcome_of_result {A : Type} (r : result A) : outcome A :=
  match r with
  | Return a => Returned a
  | Raise e => Raised e
  end.

(** The statements of a [with wave.open(..., 'wb')] body, one call after
    the other until one raises. *)
Fixpoint wave_calls (F : Wave) (es : list wave_event) (h : list wave_event)
  : option (string * string) * list wave_event :=
  match es with
  | [] => (None, h)
  | e :: es' =>
      match wave_raises F h e with
      | Some err => (Some err, e :: h)
      | None => wave_calls F es' (e :: h)
      end
  end.

(** Plays a wav file via PulseAudio. *)
Definition play_wav (N : Native) (F : Wave) (file_path : string)
  : World -> outcome unit * World :=
  fun w =>
    (* with wave.open(file_path, 'rb') as wf *)
    match wave_open_rb F file_path with
    | inr (cls, text) => (WaveRaised cls text, w)
    | inl wf =>
        (* the constructor's arguments are evaluated first *)
        match width2format (getsampwidth wf) with
        | Raise e => (Raised e, w)
        | Return fmt =>
            let '(r, w') :=
              with_PaSimple N
                (PaSimple_defaults N PA_STREAM_PLAYBACK fmt
                   (getnchannels wf) (getframerate wf))
                (write N (frames wf) ;;; drain N) w in
            (outcome_of_result r, w')
        end
    end.

(** Records a wav file via PulseAudio.  The state is the process state
    and the calls made on wave files opened for writing. *)
Definition record_wav (N : Native) (F : Wave) (file_path : string)
    (length : Z) (format channels sample_rate : Z)
  : World * list wave_event -> outcome unit * (World * list wave_event) :=
  fun fw =>
    let '(w, h) := fw in
    match with_PaSimple N
            (PaSimple_defaults N PA_STREAM_RECORD format channels sample_rate)
            (width <- lift_result (format2width format) ;;
             read N (channels * sample_rate * width * length)) w with
    | (Raise e, w1) => (Raised e, (w1, h))
    | (Return audio_data, w1) =>
        (* with wave.open(file_path, 'wb') as wf *)
        match wave_raises F h (wave_open_wb file_path) with
        | Some (cls, text) =>
            (WaveRaised cls text, (w1, wave_open_wb file_path :: h))
        | None =>
            let h1 := wave_open_wb file_path :: h in
            let '(r, h2) :=
              match format2width format with
              | Raise e => (Raised e, h1)
              | Return width =>
                  match wave_calls F
                          [wave_setsampwidth width;
                           wave_setnchannels channels;
                           wave_setframerate sample_rate;
                           wave_writeframes audio_data] h1 with
                  | (Some (cls, text), h2) => (WaveRaised cls text, h2)
                  | (None, h2) => (Returned tt, h2)
                  end
              end in
            match wave_raises F h2 wave_close with
            | Some (cls, text) => (WaveRaised cls text, (w1, wave_close :: h2))
            | None => (r, (w1, wave_close :: h2))
            end
        end
    end.

(** [record_wav(file_path, length)] with the default format, channel
    count and sample rate. *)
Definition record_wav_defaults (N : Native) (F : Wave) (file_path : string)
    (length : Z) : World * list wave_event -> outcome unit * (World * list wave_event) :=
  record_wav N F file_path length PA_SAMPLE_S24LE 1 41000.

(** ** More test doubles *)

(** The library of [fake_native], except that every transfer fails with
    status -1 and error code 5. *)
Definition failing_native : Native :=
  {| lib_CDLL := lib_CDLL fake_native;
     lib_new := lib_new fake_native;
     lib_read := fun _ _ _ => (-1, 5, []);
     lib_write := fun _ _ _ _ => (-1, 5);
     lib_drain := fun _ _ => (-1, 5);
     lib_flush := fun _ _ => (-1, 5);
     lib_get_latency := lib_get_latency fake_native |}.

(** The library of [fake_native], except that no stream can be opened:
    [pa_simple_new] returns NULL with error code 6. *)
Definition refusing_native : Native :=
  {| lib_CDLL := lib_CDLL fake_native;
     lib_new := fun _ _ => (0, 6);
     lib_read := lib_read fake_native;
     lib_write := lib_write fake_native;
     lib_drain := lib_drain fake_native;
     lib_flush := lib_flush fake_native;
     lib_get_latency := lib_get_latency fake_native |}.

(** A [wave] module whose calls never raise and which finds, under
    every name, a file of two 16-bit stereo frames at 8000 Hz; and the
    same module for a file with 8-byte samples. *)
Definition fake_wave : Wave :=
  {| wave_open_rb := fun _ =>
       inl {| getsampwidth := 2; getnchannels := 2; getframerate := 8000;
              frames := [x01; x02; x03; x04; x05; x06; x07; x08] |};
     wave_raises := fun _ _ => None |}.

Definition wide_wave : Wave :=
  {| wave_open_rb := fun _ =>
       inl {| getsampwidth := 8; getnchannels := 1; getframerate := 8000;
              frames := [x01; x02; x03; x04; x05; x06; x07; x08] |};
     wave_raises := fun _ _ => None |}.

(** ** Invariants of reachable states *)

(** An alive stream exists only once the library has been loaded (so
    [close] on it reaches [pa_simple_free]). *)
Definition loaded_if_alive (st : PaSimple_obj * World) : Prop :=
  _stream_alive (fst st) = true -> is_Some (_libpulse_simple (snd st)).

(** The module global is only ever assigned by [get_libpulse_simple]: it
    is [None] or the library object as that function configures it. *)
Definition configured_library : CDLL :=
  {| pa_simple_new_restype := restype_c_void_p;
     pa_simple_get_latency_attr := c_ulonglong_class |}.

Definition set_up_by_module (w : World) : Prop :=
  forall lib, _libpulse_simple w = Some lib -> lib = configured_library.

(** ** Proof automation *)

Ltac py_unfold :=
  unfold call, __enter__, __exit__, PaSimple, close, direction, format, channels, rate,
    read, write, drain, flush, get_latency, __init__,
    pa_simple_new, pa_simple_get_latency, pa_simple_free, pa_simple_read,
    pa_simple_write, pa_simple_drain, pa_simple_flush,
    set_encoding, set_stream_alive, set_stream, self, world, lift_result,
    bind, ret, raise, get_libpulse_simple, log in *;
  simpl in *.

(** Case analysis on the answers of the library and on the tests the
    methods make. *)
Ltac py_case :=
  match goal with
  | |- context [lib_CDLL ?N ?t] =>
      destruct (lib_CDLL N t) as [[? ?]|] eqn:?
  | |- context [lib_new ?N ?t ?a] =>
      destruct (lib_new N t a) as [? ?] eqn:?
  | |- context [lib_read ?N ?t ?s ?n] =>
      destruct (lib_read N t s n) as [[? ?] ?] eqn:?
  | |- context [lib_write ?N ?t ?s ?d ?n] =>
      destruct (lib_write N t s d n) as [? ?] eqn:?
  | |- context [lib_drain ?N ?t ?s] =>
      destruct (lib_drain N t s) as [? ?] eqn:?
  | |- context [lib_flush ?N ?t ?s] =>
      destruct (lib_flush N t s) as [? ?] eqn:?
  | |- context [lib_get_latency ?N ?t ?s] =>
      destruct (lib_get_latency N t s) as [? ?] eqn:?
  | |- context [bytearray ?n] =>
      unfold bytearray, c_char_array; destruct (n <? 0) eqn:?
  | |- context [c_void_p_result ?p] =>
      unfold c_void_p_result; destruct (p =? 0) eqn:?
  | |- context [negb (?a =? ?b)] => destruct (a =? b) eqn:?
  | |- context [match ?r with restype_c_int => _ | restype_c_void_p => _ end] =>
      destruct r eqn:?
  | |- context [match ?r with foreign_function => _ | c_ulonglong_class => _ end] =>
      destruct r eqn:?
  end.

Ltac py_cases := repeat (simpl; py_case); simpl.

(** Case analysis on the answers of the [wave] module. *)
Ltac wave_case :=
  match goal with
  | |- context [wave_raises ?F ?h ?e] =>
      destruct (wave_raises F h e) as [[? ?]|] eqn:?
  end.

(** * Properties *)

(** ** Format catalog *)

(** C6: [format2width] returns a width for each of the thirteen defined
    sample formats, [width2format] maps 1, 2, 3, 4 to PA_SAMPLE_U8,
    PA_SAMPLE_S16LE, PA_SAMPLE_S24LE, PA_SAMPLE_S32LE, and
    [format2width (width2format w) = w] for every width [w] in 1..4. *)
Theorem format2width_total_and_inverts_width2format :
  length sample_formats = 13%nat /\
  NoDup sample_formats /\
  (forall f, In f sample_formats ->
     exists w, format2width f = Return w /\ 1 <= w <= 4) /\
  width2format 1 = Return PA_SAMPLE_U8 /\
  width2format 2 = Return PA_SAMPLE_S16LE /\
  width2format 3 = Return PA_SAMPLE_S24LE /\
  width2format 4 = Return PA_SAMPLE_S32LE /\
  (forall w, 1 <= w <= 4 ->
     exists f, width2format w = Return f /\ format2width f = Return w).
Proof.
  split; [reflexivity|].
  split.
  { apply (bool_decide_unpack _). vm_compute. reflexivity. }
  split.
  { intros f Hf. simpl in Hf.
    repeat (destruct Hf as [<-|Hf]; [eexists; split; [vm_compute; reflexivity|lia]|]).
    destruct Hf. }
  repeat (split; [vm_compute; reflexivity|]).
  intros w Hw.
  assert (w = 1 \/ w = 2 \/ w = 3 \/ w = 4) as [-> | [-> | [-> | -> ]]] by lia;
    eexists; split; vm_compute; reflexivity.
Qed.

Lemma format2width_total_and_inverts_width2format_witness :
  (exists w, format2width PA_SAMPLE_S24_32BE = Return w /\ 1 <= w <= 4) /\
  (exists f, width2format 3 = Return f /\ format2width f = Return 3).
Proof.
  destruct format2width_total_and_inverts_width2format
    as (_ & _ & Hfmt & _ & _ & _ & _ & Hw).
  split.
  - apply Hfmt. vm_compute. tauto.
  - apply Hw. lia.
Defined.

(** C7: for every width outside 1..4, [width2format] fails: the
    dictionary lookup raises [KeyError] for that width, and no format is
    returned. *)
Theorem width2format_unsupported_width (w : Z) :
  ~ (1 <= w <= 4) ->
  width2format w = Raise (KeyError w) /\
  forall f, width2format w <> Return f.
Proof.
  intros Hw.
  assert (width2format w = Raise (KeyError w)) as E.
  { unfold width2format, getitem, LOOKUP_FORMAT_BY_WIDTH.
    rewrite !lookup_insert_ne by lia.
    rewrite lookup_singleton_ne by lia. reflexivity. }
  split; [exact E|]. intros f. rewrite E. discriminate.
Qed.

Lemma width2format_unsupported_width_witness :
  width2format 5 = Raise (KeyError 5) /\
  forall f, width2format 5 <> Return f.
Proof. apply (width2format_unsupported_width 5). lia. Defined.

(** ** Streams: auxiliary facts *)

Section StreamFacts.

Variable N : Native.

Lemma get_libpulse_simple_memo (w : World) (lib : CDLL) :
  _libpulse_simple w = Some lib ->
  get_libpulse_simple N w = (Return lib, w).
Proof. intros E. unfold get_libpulse_simple. rewrite E. reflexivity. Qed.

Lemma run_app (cs1 cs2 : list op) (st : PaSimple_obj * World) :
  run N (cs1 ++ cs2) st = run N cs2 (run N cs1 st).
Proof. revert st. induction cs1 as [|c cs1 IH]; intros st; simpl; auto. Qed.

(** What one method call can change. *)
Lemma call_step (c : op) (st : PaSimple_obj * World) :
  let st' := snd (call N c st) in
  (_direction (fst st') = _direction (fst st) /\
   _format (fst st') = _format (fst st) /\
   _channels (fst st') = _channels (fst st) /\
   _rate (fst st') = _rate (fst st) /\
   _stream (fst st') = _stream (fst st)) /\
  (is_Some (_libpulse_simple (snd st)) -> is_Some (_libpulse_simple (snd st'))) /\
  (_stream_alive (fst st') = true -> _stream_alive (fst st) = true) /\
  (loaded_if_alive st ->
   frees (trace (snd st')) =
     (if _stream_alive (fst st) && negb (_stream_alive (fst st'))
      then [c_void_p (_stream (fst st))] else [])
     ++ frees (trace (snd st))).
Proof.
  destruct st as [[d f ch r alive s] [cell t]].
  unfold loaded_if_alive.
  destruct c; py_unfold; destruct alive; simpl;
    try (repeat split; auto; fail).
  all: destruct cell as [[rt attr]|]; py_cases.
  all: repeat split; eauto.
  all: try (intros H; destruct H as [? H]; auto; discriminate H).
Qed.

(** The same over a whole sequence of calls: the constructor's values
    stay, a closed stream stays closed, and the library is asked to free
    the handle exactly when the stream goes from alive to closed. *)
Lemma run_steps (cs : list op) (st : PaSimple_obj * World) :
  loaded_if_alive st ->
  let st' := run N cs st in
  (_direction (fst st') = _direction (fst st) /\
   _format (fst st') = _format (fst st) /\
   _channels (fst st') = _channels (fst st) /\
   _rate (fst st') = _rate (fst st) /\
   _stream (fst st') = _stream (fst st)) /\
  loaded_if_alive st' /\
  (_stream_alive (fst st') = true -> _stream_alive (fst st) = true) /\
  frees (trace (snd st')) =
    (if _stream_alive (fst st) && negb (_stream_alive (fst st'))
     then [c_void_p (_stream (fst st))] else [])
    ++ frees (trace (snd st)).
Proof.
  revert st. induction cs as [|c cs IH]; intros st Hst; simpl.
  - repeat split; auto.
    destruct (_stream_alive (fst st)); reflexivity.
  - destruct (call_step c st) as ((Hd & Hf & Hc & Hr & Hs) & Hlib & Hmono & Hfree).
    specialize (Hfree Hst).
    assert (loaded_if_alive (snd (call N c st))) as Hst1.
    { intros Ha. apply Hlib, Hst, Hmono, Ha. }
    destruct (IH _ Hst1) as ((Hd' & Hf' & Hc' & Hr' & Hs') & Hinv & Hmono' & Hfree').
    repeat split; try congruence; auto.
    rewrite Hfree', Hfree, Hs.
    destruct (_stream_alive (fst st)) eqn:E0,
             (_stream_alive (fst (snd (call N c st)))) eqn:E1,
             (_stream_alive (fst (run N cs (snd (call N c st))))) eqn:E2;
      simpl; try reflexivity.
    all: try (specialize (Hmono' eq_refl); discriminate).
    all: specialize (Hmono eq_refl); discriminate.
Qed.

(** Every I/O method starts with the liveness test; [close] tests the
    same flag. *)
Lemma closed_stream_rejects (st : PaSimple_obj * World) :
  _stream_alive (fst st) = false ->
  (forall n, read N n st = (Raise (PaSimpleError closed_stream_msg), st)) /\
  (forall data, write N data st = (Raise (PaSimpleError closed_stream_msg), st)) /\
  drain N st = (Raise (PaSimpleError closed_stream_msg), st) /\
  flush N st = (Raise (PaSimpleError closed_stream_msg), st) /\
  get_latency N st = (Raise (PaSimpleError closed_stream_msg), st) /\
  close N st = (Return tt, st).
Proof.
  destruct st as [o w]. simpl. intros E.
  py_unfold. rewrite E. simpl. repeat split; reflexivity.
Qed.

(** [close()] on an alive stream of a process that has the library. *)
Lemma close_alive (o : PaSimple_obj) (w : World) :
  _stream_alive o = true ->
  is_Some (_libpulse_simple w) ->
  _stream_alive (fst (snd (close N (o, w)))) = false.
Proof.
  intros E [lib Hlib]. py_unfold. rewrite E. simpl. rewrite Hlib. reflexivity.
Qed.

Section Constructor.

Variables (direction format channels rate : Z) (app_name : string)
  (stream_name server_name device_name : option string)
  (ml tl pb mr fs : Z).

(** What [__init__] leaves behind.  It frees nothing and stores its
    arguments; when it returns, the stream is alive on the handle
    that [pa_simple_new] gave and the library is loaded; when it
    raises, the stream is not alive. *)
Lemma init_outcome (w w' : World) (o : PaSimple_obj) (r : result unit) :
  __init__ N direction format channels rate app_name stream_name
    server_name device_name ml tl pb mr fs (blank, w) = (r, (o, w')) ->
  frees (trace w') = frees (trace w) /\
  (_direction o = direction /\ _format o = format /\
   _channels o = channels /\ _rate o = rate) /\
  match r with
  | Return _ =>
      _stream_alive o = true /\
      is_Some (_libpulse_simple w') /\
      exists h, _stream o = Some h
  | Raise _ => _stream_alive o = false
  end.
Proof.
  destruct w as [[[rt attr]|] t]; py_unfold; py_cases;
    intros H; inversion H; subst; simpl;
    repeat split; eauto.
Qed.

Lemma PaSimple_returns (w w' : World) (o : PaSimple_obj) :
  PaSimple N direction format channels rate app_name stream_name
    server_name device_name ml tl pb mr fs w = (Return o, w') ->
  __init__ N direction format channels rate app_name stream_name
    server_name device_name ml tl pb mr fs (blank, w) = (Return tt, (o, w')).
Proof.
  unfold PaSimple.
  destruct (__init__ N direction format channels rate app_name stream_name
              server_name device_name ml tl pb mr fs (blank, w))
    as [[[]|e] [o1 w1]]; intros H; inversion H; reflexivity.
Qed.

End Constructor.

End StreamFacts.

(** ** Stream lifecycle *)

(** A call other than [close()] and [__exit__] leaves the object as it
    is. *)
Lemma nonclosing_call_keeps_object (N : Native) (c : op)
    (st : PaSimple_obj * World) :
  c <> call_close ->
  c <> call_exit ->
  fst (snd (call N c st)) = fst st.
Proof.
  intros Hc He.
  destruct st as [[d f ch r alive s] [[[rt attr]|] t]].
  all: destruct c; try congruence; py_unfold; destruct alive; py_cases;
    reflexivity.
Qed.

(** C1 as stated fails on a stream that is opened and used but never
    closed: the class has no finalizer, [close()] is the only place that
    calls [pa_simple_free], so in such a lifetime the stream is freed
    zero times, not once. *)
Lemma stream_never_closed_is_never_freed :
  let st := run fake_native [call_read 4; call_flush]
              (open_stream PA_STREAM_RECORD) in
  _stream_alive (fst (open_stream PA_STREAM_RECORD)) = true /\
  _stream_alive (fst st) = true /\
  frees (trace (snd st)) = [] /\
  length (frees (trace (snd st))) <> 1%nat.
Proof.
  split; [vm_compute; reflexivity|].
  split; [vm_compute; reflexivity|].
  split; [vm_compute; reflexivity|].
  vm_compute. discriminate.
Qed.

(** C1 (amended): in the lifetime of a stream whose constructor
    returned, [pa_simple_free] is called at most once, and only on the
    handle [pa_simple_new] returned: after any sequence of method calls
    it has been called once if the stream is closed and not at all if it
    is still alive.  A lifetime without [close()] and [__exit__] leaves
    the stream alive (never freed); a lifetime that contains one of them
    leaves it closed (freed exactly once), and from then on every
    [read], [write], [drain], [flush] and [get_latency] raises the
    closed-stream error and leaves the state alone, and a further
    [close()] returns without any effect.  A stream whose [__init__]
    raised is never freed, whatever is called on it afterwards. *)
Theorem stream_is_freed_at_most_once_and_rejects_after_close (N : Native)
    (d f c r : Z) (app_name : string)
    (stream_name server_name device_name : option string)
    (ml tl pb mr fs : Z)
    (w0 w1 : World) (o : PaSimple_obj) (res : result unit) :
  __init__ N d f c r app_name stream_name server_name device_name
    ml tl pb mr fs (blank, w0) = (res, (o, w1)) ->
  (res = Return tt ->
   exists h,
     _stream o = Some h /\
     (forall cs : list op,
        let st := run N cs (o, w1) in
        frees (trace (snd st))
        = (if _stream_alive (fst st) then [] else [h]) ++ frees (trace w0)) /\
     (forall cs : list op,
        Forall (fun c0 => c0 <> call_close /\ c0 <> call_exit) cs ->
        _stream_alive (fst (run N cs (o, w1))) = true) /\
     (forall (cs1 cs2 : list op) (closing : op),
        closing = call_close \/ closing = call_exit ->
        let st := run N (cs1 ++ closing :: cs2) (o, w1) in
        _stream_alive (fst st) = false /\
        (forall n, read N n st = (Raise (PaSimpleError closed_stream_msg), st)) /\
        (forall data, write N data st = (Raise (PaSimpleError closed_stream_msg), st)) /\
        drain N st = (Raise (PaSimpleError closed_stream_msg), st) /\
        flush N st = (Raise (PaSimpleError closed_stream_msg), st) /\
        get_latency N st = (Raise (PaSimpleError closed_stream_msg), st) /\
        close N st = (Return tt, st))) /\
  (forall e, res = Raise e ->
   forall cs : list op,
     frees (trace (snd (run N cs (o, w1)))) = frees (trace w0)).
Proof.
  intros Hinit.
  destruct (init_outcome N _ _ _ _ _ _ _ _ _ _ _ _ _ _ _ _ _ Hinit)
    as (Hfr & _ & Hres).
  split.
  - intros ->. destruct Hres as (Halive & Hlib & h & Hh).
    assert (loaded_if_alive (o, w1)) as Hinv by (intros _; exact Hlib).
    exists h. split; [exact Hh|]. split; [|split].
    + (* at most once, on the handle *)
      intros cs st.
      destruct (run_steps N cs (o, w1) Hinv) as (_ & _ & _ & Hfrees).
      fold st in Hfrees. rewrite Hfrees. simpl. rewrite Halive, Hh, Hfr.
      destruct (_stream_alive (fst st)); reflexivity.
    + (* never closed: still alive *)
      intros cs Hcs.
      assert (forall st : PaSimple_obj * World,
                _stream_alive (fst st) = true ->
                _stream_alive (fst (run N cs st)) = true) as Hrun.
      { induction Hcs as [|c0 cs [Hc He] _ IH]; intros st Hst; simpl.
        - exact Hst.
        - apply IH. rewrite (nonclosing_call_keeps_object N c0 st Hc He).
          exact Hst. }
      apply Hrun. exact Halive.
    + (* closed at least once *)
      intros cs1 cs2 closing Hclosing st.
      assert (call N closing = call N call_close) as Eclosing
        by (destruct Hclosing as [-> | ->]; reflexivity).
      destruct (run_steps N cs1 (o, w1) Hinv) as (_ & Hinv1 & _ & _).
      set (st1 := run N cs1 (o, w1)) in *.
      set (st2 := snd (call N call_close st1)).
      assert (_stream_alive (fst st2) = false) as Hdead.
      { subst st2. destruct st1 as [o1 w1'].
        destruct (_stream_alive o1) eqn:E.
        - pose proof (close_alive N o1 w1' E (Hinv1 E)) as Hc.
          unfold call, bind in *. simpl in *.
          destruct (close N (o1, w1')) as [[?|?] ?]; exact Hc.
        - destruct (closed_stream_rejects N (o1, w1') E)
            as (_ & _ & _ & _ & _ & Hc).
          unfold call, bind. rewrite Hc. exact E. }
      assert (loaded_if_alive st2) as Hinv2.
      { intros Ha. rewrite Hdead in Ha. discriminate. }
      destruct (run_steps N cs2 st2 Hinv2) as (_ & _ & Hmono & _).
      assert (st = run N cs2 st2) as Est.
      { subst st st2 st1. rewrite run_app. simpl. rewrite Eclosing.
        reflexivity. }
      assert (_stream_alive (fst st) = false) as Hfinal.
      { rewrite Est. destruct (_stream_alive (fst (run N cs2 st2))) eqn:E; auto.
        specialize (Hmono eq_refl). congruence. }
      split; [exact Hfinal|].
      exact (closed_stream_rejects N st Hfinal).
  - intros e ->. intros cs.
    assert (loaded_if_alive (o, w1)) as Hinv.
    { intros Ha. simpl in Ha. rewrite Hres in Ha. discriminate. }
    destruct (run_steps N cs (o, w1) Hinv) as (_ & _ & _ & Hfrees).
    rewrite Hfrees. simpl. rewrite Hres, Hfr. reflexivity.
Qed.

Lemma stream_is_freed_at_most_once_and_rejects_after_close_witness :
  let closed := run fake_native
                  ([call_read 4] ++ call_close :: [call_flush; call_close])
                  (open_stream PA_STREAM_RECORD) in
  let unclosed := run fake_native [call_read 4; call_flush]
                    (open_stream PA_STREAM_RECORD) in
  _stream_alive (fst closed) = false /\
  (forall n, read fake_native n closed
             = (Raise (PaSimpleError closed_stream_msg), closed)) /\
  close fake_native closed = (Return tt, closed) /\
  frees (trace (snd closed)) = [4096] /\
  _stream_alive (fst unclosed) = true /\
  frees (trace (snd unclosed)) = [].
Proof.
  destruct (stream_is_freed_at_most_once_and_rejects_after_close fake_native
              PA_STREAM_RECORD PA_SAMPLE_S32LE 1 44100 "python" None None None
              (-1) (-1) (-1) (-1) (-1) World_initial
              (snd (open_stream PA_STREAM_RECORD))
              (fst (open_stream PA_STREAM_RECORD)) (Return tt))
    as [Hok _]; [vm_compute; reflexivity|].
  destruct (Hok eq_refl) as (h & Hh & Hfrees & Hopen & Hclosed).
  vm_compute in Hh. inversion Hh; subst h.
  destruct (Hclosed [call_read 4] [call_flush; call_close] call_close
              (or_introl eq_refl))
    as (Hdead & Hread & _ & _ & _ & _ & Hclose).
  intros closed unclosed.
  split; [exact Hdead|].
  split; [exact Hread|].
  split; [exact Hclose|].
  split.
  { refine (eq_trans
              (Hfrees ([call_read 4] ++ call_close :: [call_flush; call_close]))
              _).
    vm_compute. reflexivity. }
  split.
  { apply (Hopen [call_read 4; call_flush]).
    repeat constructor; discriminate. }
  refine (eq_trans (Hfrees [call_read 4; call_flush]) _).
  vm_compute. reflexivity.
Defined.

(** C10: [direction()], [format()], [channels()] and [rate()] return the
    values given to the constructor after any sequence of method calls
    on the stream, [close()] included, and they return (they do not
    raise) whether the stream is alive or closed. *)
Theorem accessors_return_constructor_arguments (N : Native)
    (d f c r : Z) (app_name : string)
    (stream_name server_name device_name : option string)
    (ml tl pb mr fs : Z)
    (w0 w1 : World) (o : PaSimple_obj) (cs : list op) :
  PaSimple N d f c r app_name stream_name server_name device_name
    ml tl pb mr fs w0 = (Return o, w1) ->
  let st := run N cs (o, w1) in
  direction st = (Return d, st) /\
  format st = (Return f, st) /\
  channels st = (Return c, st) /\
  rate st = (Return r, st).
Proof.
  intros Hnew st.
  apply PaSimple_returns in Hnew.
  destruct (init_outcome N _ _ _ _ _ _ _ _ _ _ _ _ _ _ _ _ _ Hnew)
    as (_ & (Hd & Hf & Hc & Hr) & _ & Hlib & _).
  destruct (run_steps N cs (o, w1)) as ((Hd' & Hf' & Hc' & Hr' & _) & _).
  { intros _. exact Hlib. }
  fold st in Hd', Hf', Hc', Hr'. simpl in *.
  unfold direction, format, channels, rate, bind, self, ret. simpl.
  rewrite Hd', Hf', Hc', Hr', Hd, Hf, Hc, Hr. repeat split; reflexivity.
Qed.

Lemma accessors_return_constructor_arguments_witness :
  let st := run fake_native [call_write [x01; x02]; call_close; call_drain]
              (open_stream PA_STREAM_PLAYBACK) in
  _stream_alive (fst st) = false /\
  direction st = (Return PA_STREAM_PLAYBACK, st) /\
  format st = (Return PA_SAMPLE_S32LE, st) /\
  channels st = (Return 1, st) /\
  rate st = (Return 44100, st).
Proof.
  split; [vm_compute; reflexivity|].
  apply (accessors_return_constructor_arguments fake_native
           PA_STREAM_PLAYBACK PA_SAMPLE_S32LE 1 44100 "python" None None None
           (-1) (-1) (-1) (-1) (-1) World_initial).
  vm_compute. reflexivity.
Defined.

(** ** Direction gate and misuse errors *)

(** C2 as stated fails on a closed stream: [write] on a closed record
    stream raises the closed-stream error, not the direction error. *)
Lemma write_on_closed_record_stream_reports_closed :
  _direction (fst (closed_stream PA_STREAM_RECORD)) = PA_STREAM_RECORD /\
  fst (write fake_native [x01; x02] (closed_stream PA_STREAM_RECORD))
    = Raise (PaSimpleError closed_stream_msg) /\
  fst (write fake_native [x01; x02] (closed_stream PA_STREAM_RECORD))
    <> Raise (PaSimpleError not_playback_msg).
Proof.
  split; [vm_compute; reflexivity|].
  split; [vm_compute; reflexivity|].
  vm_compute. discriminate.
Qed.

(** C2 (amended): on an alive stream constructed for recording, [write]
    and [drain] raise the error that the stream was not initialized for
    playback, and on an alive stream constructed for playback [read]
    raises the error that it was not initialized for recording; once the
    stream is closed the same calls are still rejected, with the
    closed-stream error, because the liveness test comes first.  No
    rejected call changes the state. *)
Theorem direction_gate_after_liveness_test (N : Native)
    (st : PaSimple_obj * World) :
  (_direction (fst st) = PA_STREAM_RECORD ->
   (_stream_alive (fst st) = true ->
    (forall data, write N data st = (Raise (PaSimpleError not_playback_msg), st)) /\
    drain N st = (Raise (PaSimpleError not_playback_msg), st)) /\
   (_stream_alive (fst st) = false ->
    (forall data, write N data st = (Raise (PaSimpleError closed_stream_msg), st)) /\
    drain N st = (Raise (PaSimpleError closed_stream_msg), st))) /\
  (_direction (fst st) = PA_STREAM_PLAYBACK ->
   (_stream_alive (fst st) = true ->
    forall n, read N n st = (Raise (PaSimpleError not_recording_msg), st)) /\
   (_stream_alive (fst st) = false ->
    forall n, read N n st = (Raise (PaSimpleError closed_stream_msg), st))).
Proof.
  destruct st as [o w]. simpl.
  split; intros Hd; split; intros Ha; py_unfold; rewrite Ha, Hd; simpl;
    repeat split; reflexivity.
Qed.

Lemma direction_gate_after_liveness_test_witness :
  (forall data,
     write fake_native data (open_stream PA_STREAM_RECORD)
     = (Raise (PaSimpleError not_playback_msg), open_stream PA_STREAM_RECORD)) /\
  drain fake_native (closed_stream PA_STREAM_RECORD)
  = (Raise (PaSimpleError closed_stream_msg), closed_stream PA_STREAM_RECORD) /\
  (forall n,
     read fake_native n (open_stream PA_STREAM_PLAYBACK)
     = (Raise (PaSimpleError not_recording_msg), open_stream PA_STREAM_PLAYBACK)).
Proof.
  split; [|split].
  - apply (direction_gate_after_liveness_test fake_native
             (open_stream PA_STREAM_RECORD)); reflexivity.
  - apply (direction_gate_after_liveness_test fake_native
             (closed_stream PA_STREAM_RECORD)); reflexivity.
  - apply (direction_gate_after_liveness_test fake_native
             (open_stream PA_STREAM_PLAYBACK)); reflexivity.
Defined.

(** C3: a method call that fails with the closed-stream error or with one
    of the two direction errors leaves the whole state as it was: the
    history of boundary calls (so no call reached the library, and the
    library was not even loaded for it), the alive flag, the stream's
    configuration and the module global. *)
Theorem misuse_error_leaves_state_untouched (N : Native) (c : op)
    (st : PaSimple_obj * World) (msg : string) :
  fst (call N c st) = Raise (PaSimpleError msg) ->
  msg = closed_stream_msg \/ msg = not_recording_msg \/ msg = not_playback_msg ->
  snd (call N c st) = st.
Proof.
  destruct st as [[d f ch r alive s] [cell t]].
  unfold closed_stream_msg, not_recording_msg, not_playback_msg.
  destruct c; py_unfold; destruct alive; simpl; try reflexivity.
  all: try (intros H; discriminate H).
  all: destruct cell as [[rt attr]|]; py_cases; try reflexivity.
  all: intros H [-> | [-> | ->]]; try discriminate H.
Qed.

Lemma misuse_error_leaves_state_untouched_witness :
  snd (call fake_native (call_read 4) (closed_stream PA_STREAM_RECORD))
    = closed_stream PA_STREAM_RECORD /\
  snd (call fake_native call_drain (open_stream PA_STREAM_RECORD))
    = open_stream PA_STREAM_RECORD.
Proof.
  split.
  - apply (misuse_error_leaves_state_untouched fake_native (call_read 4)
             (closed_stream PA_STREAM_RECORD) closed_stream_msg).
    + vm_compute. reflexivity.
    + left. reflexivity.
  - apply (misuse_error_leaves_state_untouched fake_native call_drain
             (open_stream PA_STREAM_RECORD) not_playback_msg).
    + vm_compute. reflexivity.
    + right. right. reflexivity.
Defined.

(** ** Loading the library *)

Section LibraryFacts.

Variable N : Native.

(** No method call replaces a loaded library or loads it again. *)
Lemma call_keeps_library (c : op) (st : PaSimple_obj * World) (lib : CDLL) :
  _libpulse_simple (snd st) = Some lib ->
  _libpulse_simple (snd (snd (call N c st))) = Some lib /\
  loads (trace (snd (snd (call N c st)))) = loads (trace (snd st)).
Proof.
  destruct st as [[d f ch r alive s] [cell t]]. simpl. intros ->.
  destruct lib as [rt attr].
  destruct c; py_unfold; destruct alive; py_cases; split; reflexivity.
Qed.

Lemma run_keeps_library (cs : list op) (st : PaSimple_obj * World) (lib : CDLL) :
  _libpulse_simple (snd st) = Some lib ->
  _libpulse_simple (snd (run N cs st)) = Some lib /\
  loads (trace (snd (run N cs st))) = loads (trace (snd st)).
Proof.
  revert st. induction cs as [|c cs IH]; intros st Hlib; simpl.
  - split; [exact Hlib|reflexivity].
  - destruct (call_keeps_library c st lib Hlib) as [H1 H2].
    destruct (IH _ H1) as [H3 H4]. split; congruence.
Qed.

End LibraryFacts.

(** C8: the library is loaded on first use, not at import.  When
    [ctypes.CDLL] raises [OSError] the call raises [PaSimpleError] and the
    global stays [None], so the next use calls [ctypes.CDLL] again and,
    if that succeeds, returns the library and stores it.  Once a library
    is stored, every later use returns that same object without another
    load, also after any method calls on a stream in between. *)
Theorem failed_load_is_retried_and_success_is_memoized (N : Native) (w : World) :
  _libpulse_simple World_initial = None /\
  loads (trace World_initial) = 0%nat /\
  (_libpulse_simple w = None ->
   (forall cls text,
      lib_CDLL N (trace w) = Some (cls, text) ->
      let w1 := snd (get_libpulse_simple N w) in
      (exists msg, fst (get_libpulse_simple N w) = Raise (PaSimpleError msg)) /\
      _libpulse_simple w1 = None /\
      trace w1 = CDLL_call :: trace w /\
      (lib_CDLL N (trace w1) = None ->
       exists lib,
         fst (get_libpulse_simple N w1) = Return lib /\
         _libpulse_simple (snd (get_libpulse_simple N w1)) = Some lib /\
         trace (snd (get_libpulse_simple N w1)) = CDLL_call :: trace w1)) /\
   (lib_CDLL N (trace w) = None ->
    exists lib,
      fst (get_libpulse_simple N w) = Return lib /\
      _libpulse_simple (snd (get_libpulse_simple N w)) = Some lib /\
      trace (snd (get_libpulse_simple N w)) = CDLL_call :: trace w)) /\
  (forall lib,
     _libpulse_simple w = Some lib ->
     get_libpulse_simple N w = (Return lib, w) /\
     forall (cs : list op) (o : PaSimple_obj),
       let w' := snd (run N cs (o, w)) in
       get_libpulse_simple N w' = (Return lib, w') /\
       loads (trace w') = loads (trace w)).
Proof.
  split; [reflexivity|]. split; [reflexivity|].
  split.
  - intros Hnone. split.
    + intros cls text Hfail.
      unfold get_libpulse_simple at 1 2 3 4. rewrite Hnone, Hfail. simpl.
      split; [eexists; reflexivity|].
      split; [exact Hnone|]. split; [reflexivity|].
      intros Hok. unfold get_libpulse_simple, log. simpl.
      rewrite Hnone, Hok. simpl. eexists. repeat split; reflexivity.
    + intros Hok. unfold get_libpulse_simple. rewrite Hnone, Hok. simpl.
      eexists. repeat split; reflexivity.
  - intros lib Hlib. split.
    + apply get_libpulse_simple_memo, Hlib.
    + intros cs o w'.
      destruct (run_keeps_library N cs (o, w) lib Hlib) as [H1 H2].
      split; [apply get_libpulse_simple_memo, H1|exact H2].
Qed.

Lemma failed_load_is_retried_and_success_is_memoized_witness :
  let first := get_libpulse_simple fail_once_native World_initial in
  let second := get_libpulse_simple fail_once_native (snd first) in
  let third := get_libpulse_simple fail_once_native (snd second) in
  (exists msg, fst first = Raise (PaSimpleError msg)) /\
  _libpulse_simple (snd first) = None /\
  (exists lib, fst second = Return lib /\
               _libpulse_simple (snd second) = Some lib /\
               third = (Return lib, snd second)).
Proof.
  intros first second third.
  destruct (failed_load_is_retried_and_success_is_memoized
              fail_once_native World_initial) as (_ & _ & Hcold & _).
  destruct (Hcold eq_refl) as [Hfail _].
  destruct (Hfail "OSError"
              "libpulse-simple.so.0: cannot open shared object file" eq_refl)
    as (Hraise & Hcell & _ & Hretry).
  split; [exact Hraise|]. split; [exact Hcell|].
  destruct (Hretry eq_refl) as (lib & Hret & Hstored & _).
  exists lib. split; [exact Hret|]. split; [exact Hstored|].
  destruct (failed_load_is_retried_and_success_is_memoized
              fail_once_native (snd second)) as (_ & _ & _ & Hwarm).
  apply (Hwarm lib Hstored).
Defined.

(** ** Reading *)

Lemma fill_buffer_length (buf stored : list byte) :
  length (fill_buffer buf stored) = length buf.
Proof.
  unfold fill_buffer.
  rewrite length_take, length_app, length_drop. lia.
Qed.

(** The stored bytes lead the buffer (cut at the end of the buffer when
    the library stored more than it may). *)
Lemma fill_buffer_prefix (buf stored : list byte) :
  firstn (length stored) (fill_buffer buf stored) = firstn (length buf) stored.
Proof.
  unfold fill_buffer.
  rewrite take_take, take_app.
  destruct (Nat.le_gt_cases (length stored) (length buf)) as [Hle|Hgt].
  - rewrite Nat.min_l by lia.
    rewrite !(firstn_all2 stored) by lia.
    replace (length stored - length stored)%nat with 0%nat by lia.
    rewrite take_0, app_nil_r. reflexivity.
  - rewrite Nat.min_r by lia.
    replace (length buf - length stored)%nat with 0%nat by lia.
    rewrite take_0, app_nil_r. reflexivity.
Qed.

Lemma fill_buffer_exact (buf stored : list byte) :
  length stored = length buf -> fill_buffer buf stored = stored.
Proof.
  intros E. unfold fill_buffer.
  rewrite drop_ge by lia. rewrite app_nil_r, <- E. apply firstn_all.
Qed.

(** C5: for [n >= 0], [read(n)] on an alive record stream first obtains
    the library.  If the load fails, the load error is raised and
    nothing is read.  Otherwise [read] makes exactly one call,
    [pa_simple_read] on the stream's handle with the byte count (as a C
    int, which is [n] itself below 2^31), and the outcome is decided by
    that call's answer: a non-zero status raises the read error with the
    library's error code; status 0 returns the bytearray the library
    wrote into.  That buffer has length exactly [n], the bytes the
    library stored in this call come first, and it is exactly those
    bytes when the library stored [n] of them. *)
Theorem read_returns_exactly_num_bytes_or_fails (N : Native)
    (o : PaSimple_obj) (w : World) (n : Z) :
  _stream_alive o = true ->
  _direction o = PA_STREAM_RECORD ->
  0 <= n ->
  let h := c_void_p (_stream o) in
  match get_libpulse_simple N w with
  | (Raise e, w1) =>
      read N n (o, w) = (Raise e, (o, w1)) /\
      frees (trace w1) = frees (trace w) /\
      handles (trace w1) = handles (trace w) /\
      exists cls text,
        e = PaSimpleError ("<class '" +:+ cls +:+ "'>: " +:+ text)
  | (Return _, w1) =>
      let answer := lib_read N (trace w1) h (int_arg n) in
      let ok := fst (fst answer) in
      let error := snd (fst answer) in
      let stored := snd answer in
      let buf := fill_buffer (repeat x00 (Z.to_nat n)) stored in
      snd (read N n (o, w)) = (o, log (pa_simple_read_call h (int_arg n)) w1) /\
      (ok = 0 -> fst (read N n (o, w)) = Return buf) /\
      (ok <> 0 ->
       fst (read N n (o, w))
       = Raise (PaSimpleError ("Could not record audio, error code: "
                               +:+ str error))) /\
      length buf = Z.to_nat n /\
      firstn (length stored) buf = firstn (Z.to_nat n) stored /\
      (length stored = Z.to_nat n -> buf = stored) /\
      (n < 2 ^ 31 -> int_arg n = n)
  end.
Proof.
  intros Halive Hdir Hn h.
  assert ((n <? 0) = false) as Hneg by lia.
  assert (n < 2 ^ 31 -> int_arg n = n) as Hsmall.
  { intros Hlt. unfold int_arg, c_int. rewrite Z.mod_small by lia. lia. }
  assert (forall (w1 : World) (lib : CDLL),
            get_libpulse_simple N w = (Return lib, w1) ->
            read N n (o, w)
            = (let answer := lib_read N (trace w1) h (int_arg n) in
               if negb (fst (fst answer) =? 0)
               then Raise (PaSimpleError
                             ("Could not record audio, error code: "
                              +:+ str (snd (fst answer))))
               else Return (fill_buffer (repeat x00 (Z.to_nat n)) (snd answer)),
               (o, log (pa_simple_read_call h (int_arg n)) w1))) as Hread.
  { intros w1 lib Hlib. subst h.
    unfold read, bind, self, raise, ret, lift_result, world, bytearray,
      c_char_array, pa_simple_read.
    simpl. rewrite Halive, Hdir, Hneg. simpl. rewrite Hlib. simpl.
    destruct (lib_read N (trace w1) (c_void_p (_stream o)) (int_arg n))
      as [[ok error] stored]. simpl.
    destruct (ok =? 0); reflexivity. }
  destruct (get_libpulse_simple N w) as [[lib|e] w1] eqn:Hlib.
  - rewrite (Hread w1 lib eq_refl). simpl.
    split; [reflexivity|].
    split.
    { intros Hok. rewrite Hok. reflexivity. }
    split.
    { intros Hok. apply Z.eqb_neq in Hok. rewrite Hok. reflexivity. }
    split; [rewrite fill_buffer_length; apply repeat_length|].
    split; [rewrite fill_buffer_prefix, repeat_length; reflexivity|].
    split; [|exact Hsmall].
    intros Hs. apply fill_buffer_exact. rewrite repeat_length. exact Hs.
  - unfold read, bind, self, raise, lift_result, world, bytearray, c_char_array.
    simpl. rewrite Halive, Hdir, Hneg. simpl. rewrite Hlib. simpl.
    split; [reflexivity|].
    unfold get_libpulse_simple in Hlib.
    destruct (_libpulse_simple w) as [lib|]; [discriminate Hlib|].
    destruct (lib_CDLL N (trace w)) as [[cls text]|]; inversion Hlib; subst.
    simpl. repeat split; try reflexivity.
    exists cls, text. reflexivity.
Qed.

Lemma read_returns_exactly_num_bytes_or_fails_witness :
  read fake_native 4 (open_stream PA_STREAM_RECORD)
  = (Return [x2a; x2a; x2a; x2a],
     (fst (open_stream PA_STREAM_RECORD),
      log (pa_simple_read_call 4096 4) (snd (open_stream PA_STREAM_RECORD)))).
Proof.
  pose proof (read_returns_exactly_num_bytes_or_fails fake_native
                (fst (open_stream PA_STREAM_RECORD))
                (snd (open_stream PA_STREAM_RECORD)) 4
                eq_refl eq_refl) as H.
  assert (0 <= 4) as Hn by lia.
  specialize (H Hn).
  destruct H as (Hsnd & Hok & _).
  rewrite (surjective_pairing (read fake_native 4 _)).
  change (open_stream PA_STREAM_RECORD)
    with (fst (open_stream PA_STREAM_RECORD), snd (open_stream PA_STREAM_RECORD))
    at 1 2.
  rewrite Hsnd, (Hok eq_refl). reflexivity.
Defined.

(** ** Opening a stream *)

(** C9: whenever the library is available, [__init__] calls
    [pa_simple_new] with a buffer-attributes structure whose five fields
    are the five buffer parameters reduced modulo 2^32.  With the default
    -1 a field is 2^32 - 1, all 32 bits set; a byte count from 0 to
    2^32 - 1 is stored as it is. *)
Theorem buffer_attributes_passed_to_pa_simple_new (N : Native)
    (d f c r : Z) (app_name : string)
    (stream_name server_name device_name : option string)
    (ml tl pb mr fs : Z) (w w1 : World) (lib : CDLL) :
  get_libpulse_simple N w = (Return lib, w1) ->
  exists a : new_args,
    trace (snd (snd (__init__ N d f c r app_name stream_name server_name
                       device_name ml tl pb mr fs (blank, w))))
    = pa_simple_new_call a :: trace w1 /\
    arg_buffer_attr a
    = {| maxlength := ml mod 2 ^ 32; tlength := tl mod 2 ^ 32;
         prebuf := pb mod 2 ^ 32; minreq := mr mod 2 ^ 32;
         fragsize := fs mod 2 ^ 32 |} /\
    (ml = -1 -> maxlength (arg_buffer_attr a) = Z.ones 32) /\
    (tl = -1 -> tlength (arg_buffer_attr a) = Z.ones 32) /\
    (pb = -1 -> prebuf (arg_buffer_attr a) = Z.ones 32) /\
    (mr = -1 -> minreq (arg_buffer_attr a) = Z.ones 32) /\
    (fs = -1 -> fragsize (arg_buffer_attr a) = Z.ones 32) /\
    (0 <= ml < 2 ^ 32 -> maxlength (arg_buffer_attr a) = ml) /\
    (0 <= tl < 2 ^ 32 -> tlength (arg_buffer_attr a) = tl) /\
    (0 <= pb < 2 ^ 32 -> prebuf (arg_buffer_attr a) = pb) /\
    (0 <= mr < 2 ^ 32 -> minreq (arg_buffer_attr a) = mr) /\
    (0 <= fs < 2 ^ 32 -> fragsize (arg_buffer_attr a) = fs).
Proof.
  intros Hlib.
  exists {| arg_server_name := server_name;
            arg_app_name := app_name;
            arg_direction := int_arg d;
            arg_device_name := device_name;
            arg_stream_name := default app_name stream_name;
            arg_sample_spec := pa_sample_spec f r c;
            arg_buffer_attr := pa_buffer_attr ml tl pb mr fs |}.
  split.
  - unfold __init__, bind, set_encoding, set_stream_alive, world. simpl.
    rewrite Hlib. simpl.
    unfold pa_simple_new, set_stream, log.
    destruct (lib_new N (trace w1) _) as [p error]. simpl.
    destruct (match pa_simple_new_restype lib with
              | restype_c_int => Some (c_int p)
              | restype_c_void_p => c_void_p_result p
              end); reflexivity.
  - simpl. unfold pa_buffer_attr, c_uint32.
    split; [reflexivity|]. simpl.
    repeat split; intros H; subst; try reflexivity;
      apply Z.mod_small; exact H.
Qed.

Lemma buffer_attributes_passed_to_pa_simple_new_witness :
  exists a : new_args,
    trace (snd (open_stream PA_STREAM_PLAYBACK)) = [pa_simple_new_call a; CDLL_call] /\
    arg_buffer_attr a
    = {| maxlength := 4294967295; tlength := 4294967295;
         prebuf := 4294967295; minreq := 4294967295;
         fragsize := 4294967295 |}.
Proof.
  destruct (buffer_attributes_passed_to_pa_simple_new fake_native
              PA_STREAM_PLAYBACK PA_SAMPLE_S32LE 1 44100 "python" None None None
              (-1) (-1) (-1) (-1) (-1) World_initial
              (snd (get_libpulse_simple fake_native World_initial))
              configured_library eq_refl)
    as (a & Htrace & Hattr & _).
  exists a. split; [exact Htrace|exact Hattr].
Defined.

(** ** Latency *)

Section LatencyFacts.

Variable N : Native.

Lemma call_keeps_set_up (c : op) (st : PaSimple_obj * World) :
  set_up_by_module (snd st) ->
  set_up_by_module (snd (snd (call N c st))).
Proof.
  intros Hset.
  destruct (_libpulse_simple (snd st)) as [lib|] eqn:Hcell.
  - destruct (call_keeps_library N c st lib Hcell) as [Hkeep _].
    intros lib' Hlib'. rewrite Hkeep in Hlib'. inversion Hlib'; subst.
    apply Hset, Hcell.
  - clear Hset. destruct st as [[d f ch r alive s] [cell t]]. simpl in Hcell.
    subst cell. unfold set_up_by_module.
    destruct c; py_unfold; destruct alive; py_cases;
      intros lib' Hlib'; inversion Hlib'; reflexivity.
Qed.

Lemma run_keeps_set_up (cs : list op) (st : PaSimple_obj * World) :
  set_up_by_module (snd st) ->
  set_up_by_module (snd (run N cs st)).
Proof.
  revert st. induction cs as [|c cs IH]; intros st Hset; simpl.
  - exact Hset.
  - apply IH, call_keeps_set_up, Hset.
Qed.

Lemma init_keeps_set_up (d f c r : Z) (app_name : string)
    (stream_name server_name device_name : option string)
    (ml tl pb mr fs : Z) (w : World) :
  set_up_by_module w ->
  set_up_by_module
    (snd (snd (__init__ N d f c r app_name stream_name server_name device_name
                 ml tl pb mr fs (blank, w)))).
Proof.
  unfold set_up_by_module.
  destruct w as [[[rt attr]|] t]; simpl; intros Hset.
  - specialize (Hset _ eq_refl). inversion Hset; subst.
    py_unfold; py_cases; intros lib' Hlib'; inversion Hlib'; reflexivity.
  - py_unfold; py_cases; intros lib' Hlib'; inversion Hlib'; reflexivity.
Qed.

Lemma World_initial_set_up : set_up_by_module World_initial.
Proof. intros lib H. discriminate H. Qed.

(** Whatever the state, [get_latency] does not return: a closed stream
    is rejected, a failed load raises, the constructor call of
    [c_ulonglong] raises, and after a foreign call the test
    [error != 0] on the [c_int] object always holds. *)
Lemma get_latency_never_returns (st : PaSimple_obj * World) (v : Z) :
  fst (get_latency N st) <> Return v.
Proof.
  destruct st as [[d f ch r alive s] [[[rt attr]|] t]];
    py_unfold; destruct alive; py_cases; discriminate.
Qed.

End LatencyFacts.

(** C4 (what the code does): in a process whose module global is only
    assigned by [get_libpulse_simple], [get_latency] on every alive
    stream raises [TypeError] without calling the library, whatever
    latency and error code the library would report: the attribute
    [pa_simple_get_latency] of the library object has been replaced by
    the class [ctypes.c_ulonglong], which rejects two arguments. *)
Theorem get_latency_raises_on_every_alive_stream (N : Native)
    (d f c r : Z) (app_name : string)
    (stream_name server_name device_name : option string)
    (ml tl pb mr fs : Z)
    (w0 w1 : World) (o : PaSimple_obj) (cs : list op) :
  set_up_by_module w0 ->
  PaSimple N d f c r app_name stream_name server_name device_name
    ml tl pb mr fs w0 = (Return o, w1) ->
  let st := run N cs (o, w1) in
  _stream_alive (fst st) = true ->
  get_latency N st
  = (Raise (TypeError "__init__ expected at most 1 argument, got 2"), st).
Proof.
  intros Hset Hnew st Halive.
  apply PaSimple_returns in Hnew.
  pose proof (init_keeps_set_up N d f c r app_name stream_name server_name
                device_name ml tl pb mr fs w0 Hset) as Hset1.
  rewrite Hnew in Hset1. simpl in Hset1.
  destruct (init_outcome N _ _ _ _ _ _ _ _ _ _ _ _ _ _ _ _ _ Hnew)
    as (_ & _ & _ & Hlib & _).
  destruct (run_steps N cs (o, w1)) as (_ & Hinv & _).
  { intros _. exact Hlib. }
  pose proof (run_keeps_set_up N cs (o, w1) Hset1) as Hset2.
  fold st in Hinv, Hset2.
  destruct (Hinv Halive) as [lib Hcell].
  pose proof (Hset2 lib Hcell) as ->.
  destruct st as [o' w']. simpl in *.
  unfold get_latency, bind, self, world, raise. simpl.
  rewrite Halive. simpl.
  rewrite (get_libpulse_simple_memo N w' _ Hcell). reflexivity.
Qed.

Lemma get_latency_raises_on_every_alive_stream_witness :
  let st := run fake_native [call_write [x01; x02]] (open_stream PA_STREAM_PLAYBACK) in
  lib_get_latency fake_native (trace (snd st)) (c_void_p (_stream (fst st)))
  = (1500, 0) /\
  get_latency fake_native st
  = (Raise (TypeError "__init__ expected at most 1 argument, got 2"), st).
Proof.
  split; [reflexivity|].
  apply (get_latency_raises_on_every_alive_stream fake_native
           PA_STREAM_PLAYBACK PA_SAMPLE_S32LE 1 44100 "python" None None None
           (-1) (-1) (-1) (-1) (-1) World_initial).
  - exact World_initial_set_up.
  - vm_compute. reflexivity.
  - vm_compute. reflexivity.
Defined.

(** * Further properties of the code *)

(** ** Format catalog: the two tables together *)

(** X1: for each of the thirteen defined formats, looking up its width
    and then the default format of that width succeeds and gives a
    format of the same width; it gives back the format itself exactly
    for PA_SAMPLE_U8, PA_SAMPLE_S16LE, PA_SAMPLE_S24LE and
    PA_SAMPLE_S32LE. *)
Theorem width2format_after_format2width (f : Z) :
  In f sample_formats ->
  exists w g,
    format2width f = Return w /\
    width2format w = Return g /\
    format2width g = Return w /\
    (g = f <->
     In f [PA_SAMPLE_U8; PA_SAMPLE_S16LE; PA_SAMPLE_S24LE; PA_SAMPLE_S32LE]).
Proof.
  intros Hf. simpl in Hf.
  repeat (destruct Hf as [<-|Hf];
          [eexists _, _;
           split; [vm_compute; reflexivity|];
           split; [vm_compute; reflexivity|];
           split; [vm_compute; reflexivity|];
           vm_compute; split; intros H;
           repeat (destruct H as [H|H]; try discriminate H);
           try discriminate H; try reflexivity; tauto|]).
  destruct Hf.
Qed.

Lemma width2format_after_format2width_witness :
  exists w g,
    format2width PA_SAMPLE_FLOAT32BE = Return w /\
    width2format w = Return g /\
    format2width g = Return w /\
    (g = PA_SAMPLE_FLOAT32BE <->
     In PA_SAMPLE_FLOAT32BE
       [PA_SAMPLE_U8; PA_SAMPLE_S16LE; PA_SAMPLE_S24LE; PA_SAMPLE_S32LE]).
Proof.
  apply (width2format_after_format2width PA_SAMPLE_FLOAT32BE).
  vm_compute. tauto.
Defined.

(** X2: [format2width] returns a width exactly for the format codes 0
    to 12; for any other integer the lookup raises [KeyError] carrying
    that integer. *)
Theorem format2width_defined_exactly_on_the_format_codes (f : Z) :
  ((exists w, format2width f = Return w) <-> 0 <= f <= 12) /\
  (~ (0 <= f <= 12) -> format2width f = Raise (KeyError f)).
Proof.
  assert (~ (0 <= f <= 12) -> format2width f = Raise (KeyError f)) as Hout.
  { intros Hf. unfold format2width, getitem, LOOKUP_WIDTH_BY_FORMAT.
    unfold PA_SAMPLE_U8, PA_SAMPLE_ALAW, PA_SAMPLE_ULAW, PA_SAMPLE_S16LE,
      PA_SAMPLE_S16BE, PA_SAMPLE_FLOAT32LE, PA_SAMPLE_FLOAT32BE,
      PA_SAMPLE_S32LE, PA_SAMPLE_S32BE, PA_SAMPLE_S24LE, PA_SAMPLE_S24BE,
      PA_SAMPLE_S24_32LE, PA_SAMPLE_S24_32BE.
    rewrite !lookup_insert_ne by lia.
    rewrite lookup_singleton_ne by lia. reflexivity. }
  split; [|exact Hout].
  split.
  - intros [w Hw].
    destruct (decide (0 <= f <= 12)) as [Hin|Hnot]; [exact Hin|].
    rewrite (Hout Hnot) in Hw. discriminate Hw.
  - intros Hf.
    assert (f = 0 \/ f = 1 \/ f = 2 \/ f = 3 \/ f = 4 \/ f = 5 \/ f = 6 \/
            f = 7 \/ f = 8 \/ f = 9 \/ f = 10 \/ f = 11 \/ f = 12) as H by lia.
    repeat (destruct H as [->|H]; [eexists; vm_compute; reflexivity|]).
    subst f. eexists. vm_compute. reflexivity.
Qed.

Lemma format2width_defined_exactly_on_the_format_codes_witness :
  format2width 13 = Raise (KeyError 13) /\
  format2width (-1) = Raise (KeyError (-1)).
Proof.
  split.
  - apply (format2width_defined_exactly_on_the_format_codes 13). lia.
  - apply (format2width_defined_exactly_on_the_format_codes (-1)). lia.
Defined.

(** ** Streams: what the methods leave alone *)

Section MoreStreamFacts.

Variable N : Native.

Lemma handles_app (t1 t2 : list event) :
  handles (t1 ++ t2) = handles t1 ++ handles t2.
Proof.
  induction t1 as [|e t1 IH]; simpl; [reflexivity|].
  destruct e; simpl; rewrite IH; reflexivity.
Qed.

(** The boundary calls one method call adds, and the handle they carry. *)
Lemma call_handles (c : op) (st : PaSimple_obj * World) :
  exists evs,
    trace (snd (snd (call N c st))) = evs ++ trace (snd st) /\
    Forall (fun s => s = c_void_p (_stream (fst st))) (handles evs).
Proof.
  destruct st as [[d f ch r alive s] [[[rt attr]|] t]].
  all: destruct c; py_unfold; destruct alive; py_cases.
  all: first
    [ exists []; split; [reflexivity|simpl; constructor]
    | eexists [_]; split; [reflexivity|simpl; repeat constructor]
    | eexists [_; _]; split; [reflexivity|simpl; repeat constructor] ].
Qed.

(** A call on a closed stream changes nothing at all. *)
Lemma call_closed (c : op) (st : PaSimple_obj * World) :
  _stream_alive (fst st) = false ->
  snd (call N c st) = st.
Proof.
  destruct st as [[d f ch r alive s] w]. simpl. intros ->.
  destruct c; py_unfold; reflexivity.
Qed.

End MoreStreamFacts.

(** X3: only [close()] and [__exit__] change a stream object.  Every
    other method call, whether it returns or raises, leaves all the
    attributes as they were (so a failed transfer does not close the
    stream) and asks the library to free nothing. *)
Theorem only_close_changes_the_stream (N : Native) (c : op)
    (st : PaSimple_obj * World) :
  c <> call_close ->
  c <> call_exit ->
  fst (snd (call N c st)) = fst st /\
  frees (trace (snd (snd (call N c st)))) = frees (trace (snd st)).
Proof.
  intros Hc He.
  destruct st as [[d f ch r alive s] [[[rt attr]|] t]].
  all: destruct c; try congruence; py_unfold; destruct alive; py_cases;
    split; reflexivity.
Qed.

Lemma only_close_changes_the_stream_witness :
  fst (call failing_native (call_read 4) (open_stream PA_STREAM_RECORD))
    = Raise (PaSimpleError "Could not record audio, error code: 5") /\
  fst (snd (call failing_native (call_read 4) (open_stream PA_STREAM_RECORD)))
    = fst (open_stream PA_STREAM_RECORD) /\
  _stream_alive (fst (open_stream PA_STREAM_RECORD)) = true.
Proof.
  split; [vm_compute; reflexivity|].
  split; [|vm_compute; reflexivity].
  apply (only_close_changes_the_stream failing_native (call_read 4)
           (open_stream PA_STREAM_RECORD)); discriminate.
Defined.

(** X4: every call that reaches the library during the lifetime of a
    stream (read, write, drain, flush, latency query, free) is made on
    the handle that [pa_simple_new] returned to the constructor. *)
Theorem every_library_call_carries_the_stream_handle (N : Native)
    (d f c r : Z) (app_name : string)
    (stream_name server_name device_name : option string)
    (ml tl pb mr fs : Z)
    (w0 w1 : World) (o : PaSimple_obj) (cs : list op) :
  PaSimple N d f c r app_name stream_name server_name device_name
    ml tl pb mr fs w0 = (Return o, w1) ->
  exists h evs,
    _stream o = Some h /\
    trace (snd (run N cs (o, w1))) = evs ++ trace w1 /\
    Forall (fun s => s = h) (handles evs).
Proof.
  intros Hnew. apply PaSimple_returns in Hnew.
  destruct (init_outcome N _ _ _ _ _ _ _ _ _ _ _ _ _ _ _ _ _ Hnew)
    as (_ & _ & _ & _ & h & Hh).
  exists h.
  assert (forall st : PaSimple_obj * World,
            _stream (fst st) = Some h ->
            exists evs,
              trace (snd (run N cs st)) = evs ++ trace (snd st) /\
              Forall (fun s => s = h) (handles evs)) as Hrun.
  { induction cs as [|c0 cs IH]; intros st Hst; simpl.
    - exists []. split; [reflexivity|constructor].
    - destruct (call_handles N c0 st) as (evs1 & Ht1 & Hf1).
      destruct (call_step N c0 st) as ((_ & _ & _ & _ & Hs) & _).
      destruct (IH (snd (call N c0 st))) as (evs2 & Ht2 & Hf2).
      { rewrite Hs. exact Hst. }
      exists (evs2 ++ evs1). split.
      + rewrite Ht2, Ht1, app_assoc. reflexivity.
      + rewrite handles_app. apply Forall_app. split; [exact Hf2|].
        rewrite Hst in Hf1. exact Hf1. }
  destruct (Hrun (o, w1) Hh) as (evs & Ht & Hf).
  exists evs. repeat split; assumption.
Qed.

Lemma every_library_call_carries_the_stream_handle_witness :
  exists evs,
    trace (snd (run fake_native
                  [call_write [x01]; call_drain; call_flush; call_close]
                  (open_stream PA_STREAM_PLAYBACK)))
    = evs ++ trace (snd (open_stream PA_STREAM_PLAYBACK)) /\
    Forall (fun s => s = 4096) (handles evs).
Proof.
  destruct (every_library_call_carries_the_stream_handle fake_native
              PA_STREAM_PLAYBACK PA_SAMPLE_S32LE 1 44100 "python" None None None
              (-1) (-1) (-1) (-1) (-1) World_initial
              (snd (open_stream PA_STREAM_PLAYBACK))
              (fst (open_stream PA_STREAM_PLAYBACK))
              [call_write [x01]; call_drain; call_flush; call_close])
    as (h & evs & Hh & Ht & Hf); [vm_compute; reflexivity|].
  vm_compute in Hh. inversion Hh; subst h.
  exists evs. split; [exact Ht|exact Hf].
Defined.

(** X5: once a stream is closed, no sequence of method calls on it has
    any effect: the object, the module global and the history of
    boundary calls all stay as they were, so nothing reaches the library
    (or the loader) after [close()]. *)
Theorem closed_stream_is_inert (N : Native) (cs : list op)
    (st : PaSimple_obj * World) :
  _stream_alive (fst st) = false ->
  run N cs st = st.
Proof.
  intros Hdead. induction cs as [|c cs IH]; simpl; [reflexivity|].
  rewrite (call_closed N c st Hdead). exact IH.
Qed.

Lemma closed_stream_is_inert_witness :
  run fake_native
    [call_read 4; call_write [x01]; call_get_latency; call_close; call_rate]
    (closed_stream PA_STREAM_RECORD)
  = closed_stream PA_STREAM_RECORD.
Proof.
  apply (closed_stream_is_inert fake_native). vm_compute. reflexivity.
Defined.

(** X6: [read] with a negative byte count on an alive record stream
    raises [ValueError] (from [bytearray]) before the library is asked
    for anything: the state, the history included, is unchanged. *)
Theorem read_negative_count_raises_before_the_library (N : Native)
    (o : PaSimple_obj) (w : World) (n : Z) :
  _stream_alive o = true ->
  _direction o = PA_STREAM_RECORD ->
  n < 0 ->
  read N n (o, w) = (Raise (ValueError "negative count"), (o, w)).
Proof.
  intros Ha Hd Hn.
  assert ((n <? 0) = true) as Hneg by lia.
  unfold read, bind, self, raise, lift_result, bytearray. simpl.
  rewrite Ha, Hd, Hneg. reflexivity.
Qed.

Lemma read_negative_count_raises_before_the_library_witness :
  read fake_native (-1) (open_stream PA_STREAM_RECORD)
  = (Raise (ValueError "negative count"), open_stream PA_STREAM_RECORD).
Proof.
  apply (read_negative_count_raises_before_the_library fake_native
           (fst (open_stream PA_STREAM_RECORD))
           (snd (open_stream PA_STREAM_RECORD)) (-1)).
  - reflexivity.
  - reflexivity.
  - lia.
Defined.

(** ** The constructor *)

(** X7: in a process whose module global is only assigned by
    [get_libpulse_simple], once the library is available the
    constructor makes exactly one call, [pa_simple_new] (which receives
    the direction as a C int), and its outcome is decided by the
    pointer that call returns: NULL raises
    'Error while creating stream: <code>' with the library's error code,
    any other pointer yields an alive stream whose handle is that
    pointer and whose encoding attributes are the arguments. *)
Theorem constructor_outcome_follows_pa_simple_new (N : Native)
    (d f c r : Z) (app_name : string)
    (stream_name server_name device_name : option string)
    (ml tl pb mr fs : Z) (w w1 : World) (lib : CDLL) (p code : Z) :
  set_up_by_module w ->
  get_libpulse_simple N w = (Return lib, w1) ->
  let a := {| arg_server_name := server_name;
              arg_app_name := app_name;
              arg_direction := int_arg d;
              arg_device_name := device_name;
              arg_stream_name := default app_name stream_name;
              arg_sample_spec := pa_sample_spec f r c;
              arg_buffer_attr := pa_buffer_attr ml tl pb mr fs |} in
  lib_new N (trace w1) a = (p, code) ->
  PaSimple N d f c r app_name stream_name server_name device_name
    ml tl pb mr fs w
  = (if p =? 0
     then Raise (PaSimpleError ("Error while creating stream: " +:+ str code))
     else Return {| _direction := d; _format := f; _channels := c;
                    _rate := r; _stream_alive := true; _stream := Some p |},
     log (pa_simple_new_call a) w1).
Proof.
  intros Hset Hlib a Hnew.
  assert (lib = configured_library) as ->.
  { destruct w as [[lib0|] t]; unfold get_libpulse_simple in Hlib; simpl in Hlib.
    - inversion Hlib; subst. apply Hset. reflexivity.
    - destruct (lib_CDLL N t) as [[cls text]|]; inversion Hlib; reflexivity. }
  unfold PaSimple, __init__, bind, set_encoding, set_stream_alive, world. simpl.
  rewrite Hlib. simpl.
  unfold pa_simple_new, set_stream, c_void_p_result. fold a. rewrite Hnew. simpl.
  destruct (p =? 0); reflexivity.
Qed.

Lemma constructor_outcome_follows_pa_simple_new_witness :
  PaSimple_defaults refusing_native PA_STREAM_PLAYBACK PA_SAMPLE_S16LE 2 44100
    World_initial
  = (Raise (PaSimpleError "Error while creating stream: 6"),
     log (pa_simple_new_call
            {| arg_server_name := None; arg_app_name := "python";
               arg_direction := PA_STREAM_PLAYBACK; arg_device_name := None;
               arg_stream_name := "python";
               arg_sample_spec := pa_sample_spec PA_SAMPLE_S16LE 44100 2;
               arg_buffer_attr := pa_buffer_attr (-1) (-1) (-1) (-1) (-1) |})
       (snd (get_libpulse_simple refusing_native World_initial))).
Proof.
  apply (constructor_outcome_follows_pa_simple_new refusing_native
           PA_STREAM_PLAYBACK PA_SAMPLE_S16LE 2 44100 "python" None None None
           (-1) (-1) (-1) (-1) (-1) World_initial
           (snd (get_libpulse_simple refusing_native World_initial))
           configured_library 0 6).
  - exact World_initial_set_up.
  - reflexivity.
  - reflexivity.
Defined.

(** X8: when the library cannot be loaded, the constructor raises the
    load error without calling [pa_simple_new] and leaves the module
    global unset; a second construction then loads again, and if the
    load and [pa_simple_new] succeed this time it returns an alive
    stream.  A failed first construction does not spoil the next one. *)
Theorem construction_after_failed_load (N : Native)
    (d f c r : Z) (app_name : string)
    (stream_name server_name device_name : option string)
    (ml tl pb mr fs : Z) (w : World) (cls text : string) :
  _libpulse_simple w = None ->
  lib_CDLL N (trace w) = Some (cls, text) ->
  let first := PaSimple N d f c r app_name stream_name server_name device_name
                 ml tl pb mr fs w in
  first = (Raise (PaSimpleError ("<class '" +:+ cls +:+ "'>: " +:+ text)),
           log CDLL_call w) /\
  (lib_CDLL N (CDLL_call :: trace w) = None ->
   forall p code,
     lib_new N (CDLL_call :: CDLL_call :: trace w)
       {| arg_server_name := server_name;
          arg_app_name := app_name;
          arg_direction := int_arg d;
          arg_device_name := device_name;
          arg_stream_name := default app_name stream_name;
          arg_sample_spec := pa_sample_spec f r c;
          arg_buffer_attr := pa_buffer_attr ml tl pb mr fs |} = (p, code) ->
     p <> 0 ->
     exists w2,
       PaSimple N d f c r app_name stream_name server_name device_name
         ml tl pb mr fs (snd first)
       = (Return {| _direction := d; _format := f; _channels := c;
                    _rate := r; _stream_alive := true; _stream := Some p |},
          w2) /\
       _libpulse_simple w2 = Some configured_library).
Proof.
  intros Hnone Hfail first.
  assert (first = (Raise (PaSimpleError ("<class '" +:+ cls +:+ "'>: " +:+ text)),
                   log CDLL_call w)) as Hfirst.
  { subst first. destruct w as [cell t]. simpl in *. subst cell.
    py_unfold. rewrite Hfail. reflexivity. }
  split; [exact Hfirst|].
  intros Hok p code Hnew Hp.
  rewrite Hfirst. destruct w as [cell t]. simpl in *. subst cell.
  py_unfold. rewrite Hok. simpl. rewrite Hnew. simpl.
  unfold c_void_p_result.
  apply Z.eqb_neq in Hp. rewrite Hp. simpl.
  eexists. split; reflexivity.
Qed.

Lemma construction_after_failed_load_witness :
  let first := PaSimple_defaults fail_once_native PA_STREAM_RECORD
                 PA_SAMPLE_S16LE 2 44100 World_initial in
  (exists msg, fst first = Raise (PaSimpleError msg)) /\
  exists w2,
    PaSimple_defaults fail_once_native PA_STREAM_RECORD PA_SAMPLE_S16LE 2 44100
      (snd first)
    = (Return {| _direction := PA_STREAM_RECORD; _format := PA_SAMPLE_S16LE;
                 _channels := 2; _rate := 44100;
                 _stream_alive := true; _stream := Some 4096 |}, w2) /\
    _libpulse_simple w2 = Some configured_library.
Proof.
  intros first.
  destruct (construction_after_failed_load fail_once_native
              PA_STREAM_RECORD PA_SAMPLE_S16LE 2 44100 "python" None None None
              (-1) (-1) (-1) (-1) (-1) World_initial "OSError"
              "libpulse-simple.so.0: cannot open shared object file"
              eq_refl eq_refl) as [Hfirst Hsecond].
  split.
  - eexists. exact (f_equal fst Hfirst).
  - apply (Hsecond eq_refl 4096 0 eq_refl). lia.
Defined.



(** ** Transfers *)

(** X10: with the library loaded, a method call makes at most one
    boundary call and never loads the library again: a failed transfer
    is reported, not retried. *)
Theorem at_most_one_library_call_per_method_call (N : Native) (c : op)
    (st : PaSimple_obj * World) :
  is_Some (_libpulse_simple (snd st)) ->
  exists evs,
    trace (snd (snd (call N c st))) = evs ++ trace (snd st) /\
    (length evs <= 1)%nat /\
    loads evs = 0%nat.
Proof.
  destruct st as [[d f ch r alive s] [cell t]]. simpl.
  intros [[rt attr] ->].
  destruct c; py_unfold; destruct alive; py_cases.
  all: first
    [ exists []; split; [reflexivity|split; [simpl; lia|reflexivity]]
    | eexists [_]; split; [reflexivity|split; [simpl; lia|reflexivity]] ].
Qed.

Lemma at_most_one_library_call_per_method_call_witness :
  exists evs,
    trace (snd (snd (call failing_native (call_write [x01; x02])
                       (open_stream PA_STREAM_PLAYBACK))))
    = evs ++ trace (snd (open_stream PA_STREAM_PLAYBACK)) /\
    (length evs <= 1)%nat /\
    loads evs = 0%nat.
Proof.
  apply (at_most_one_library_call_per_method_call failing_native
           (call_write [x01; x02]) (open_stream PA_STREAM_PLAYBACK)).
  vm_compute. eexists. reflexivity.
Defined.

(** X11: [flush] has no direction test.  On an alive stream of either
    direction, with the library loaded, it makes the one call
    [pa_simple_flush] on the stream's handle and returns exactly when
    that call returns status 0; otherwise it raises the flush error with
    the library's error code.  The stream object is untouched. *)
Theorem flush_reaches_the_library_whatever_the_direction (N : Native)
    (o : PaSimple_obj) (w : World) :
  _stream_alive o = true ->
  is_Some (_libpulse_simple w) ->
  let h := c_void_p (_stream o) in
  snd (flush N (o, w)) = (o, log (pa_simple_flush_call h) w) /\
  (fst (lib_flush N (trace w) h) = 0 ->
   fst (flush N (o, w)) = Return tt) /\
  (fst (lib_flush N (trace w) h) <> 0 ->
   fst (flush N (o, w))
   = Raise (PaSimpleError ("Could not flush, error code: "
                           +:+ str (snd (lib_flush N (trace w) h))))).
Proof.
  intros Ha [lib Hlib] h. subst h.
  destruct w as [cell t]. simpl in Hlib. subst cell.
  py_unfold. rewrite Ha. simpl.
  destruct (lib_flush N t (c_void_p (_stream o))) as [ok error]. simpl.
  destruct (ok =? 0) eqn:Hok; simpl.
  - apply Z.eqb_eq in Hok. repeat split; auto. intros H. contradiction.
  - apply Z.eqb_neq in Hok. repeat split; auto. intros H. contradiction.
Qed.

Lemma flush_reaches_the_library_whatever_the_direction_witness :
  flush fake_native (open_stream PA_STREAM_RECORD)
  = (Return tt,
     (fst (open_stream PA_STREAM_RECORD),
      log (pa_simple_flush_call 4096) (snd (open_stream PA_STREAM_RECORD)))) /\
  fst (flush failing_native (open_stream PA_STREAM_PLAYBACK))
  = Raise (PaSimpleError "Could not flush, error code: 5").
Proof.
  destruct (flush_reaches_the_library_whatever_the_direction fake_native
              (fst (open_stream PA_STREAM_RECORD))
              (snd (open_stream PA_STREAM_RECORD)))
    as (Hsnd & Hok & _);
    [reflexivity|vm_compute; eexists; reflexivity|].
  destruct (flush_reaches_the_library_whatever_the_direction failing_native
              (fst (open_stream PA_STREAM_PLAYBACK))
              (snd (open_stream PA_STREAM_PLAYBACK)))
    as (_ & _ & Hfail);
    [reflexivity|vm_compute; eexists; reflexivity|].
  split.
  - change (open_stream PA_STREAM_RECORD)
      with (fst (open_stream PA_STREAM_RECORD), snd (open_stream PA_STREAM_RECORD)).
    rewrite (surjective_pairing (flush fake_native _)).
    rewrite Hsnd, (Hok eq_refl). reflexivity.
  - apply Hfail. vm_compute. discriminate.
Defined.

(** ** Scoped use *)

Section WithFacts.

Variable N : Native.

Lemma bind_uses_stream_only {A B : Type} (m : method A) (k : A -> method B) :
  uses_stream_only m ->
  (forall a, uses_stream_only (k a)) ->
  uses_stream_only (bind m k).
Proof.
  intros Hm Hk st. unfold bind.
  specialize (Hm st). destruct (m st) as [[a|e] st1]; simpl in *.
  - destruct (Hk a st1) as (Ho & Hf & Hl).
    destruct Hm as (Ho1 & Hf1 & Hl1).
    repeat split; [congruence|congruence|auto].
  - exact Hm.
Qed.

Lemma lift_result_uses_stream_only {A : Type} (r : result A) :
  uses_stream_only (lift_result (S := PaSimple_obj * World) r).
Proof. intros st. unfold lift_result. simpl. auto. Qed.

Lemma read_uses_stream_only (n : Z) : uses_stream_only (read N n).
Proof.
  intros [[d f ch r alive s] [[[rt attr]|] t]];
    py_unfold; destruct alive; py_cases; repeat split; eauto.
Qed.

Lemma write_uses_stream_only (data : list byte) :
  uses_stream_only (write N data).
Proof.
  intros [[d f ch r alive s] [[[rt attr]|] t]];
    py_unfold; destruct alive; py_cases; repeat split; eauto.
Qed.

Lemma drain_uses_stream_only : uses_stream_only (drain N).
Proof.
  intros [[d f ch r alive s] [[[rt attr]|] t]];
    py_unfold; destruct alive; py_cases; repeat split; eauto.
Qed.

Lemma flush_uses_stream_only : uses_stream_only (flush N).
Proof.
  intros [[d f ch r alive s] [[[rt attr]|] t]];
    py_unfold; destruct alive; py_cases; repeat split; eauto.
Qed.

Lemma PaSimple_raises (d f c r : Z) (app_name : string)
    (stream_name server_name device_name : option string)
    (ml tl pb mr fs : Z) (w w1 : World) (e : exn) :
  PaSimple N d f c r app_name stream_name server_name device_name
    ml tl pb mr fs w = (Raise e, w1) ->
  frees (trace w1) = frees (trace w).
Proof.
  unfold PaSimple.
  destruct (__init__ N d f c r app_name stream_name server_name device_name
              ml tl pb mr fs (blank, w)) as [res [o w']] eqn:Hinit.
  destruct (init_outcome N _ _ _ _ _ _ _ _ _ _ _ _ _ _ _ _ _ Hinit) as (Hfr & _).
  destruct res; intros H; inversion H; subst; exact Hfr.
Qed.

(** Leaving the block of an alive stream: [__exit__] frees it. *)
Lemma with_PaSimple_returns {A : Type} (ctor : M World PaSimple_obj)
    (body : method A) (w w1 : World) (pa : PaSimple_obj) :
  uses_stream_only body ->
  ctor w = (Return pa, w1) ->
  _stream_alive pa = true ->
  is_Some (_libpulse_simple w1) ->
  with_PaSimple N ctor body w
  = (fst (body (pa, w1)),
     log (pa_simple_free_call (c_void_p (_stream pa)))
       (snd (snd (body (pa, w1))))).
Proof.
  intros Hbody Hctor Ha Hlib.
  unfold with_PaSimple. rewrite Hctor. unfold __enter__, self. simpl.
  destruct (Hbody (pa, w1)) as (Ho & _ & Hl). specialize (Hl Hlib).
  destruct (body (pa, w1)) as [rb [o2 w2]]. simpl in *. subst o2.
  destruct Hl as [lib Hl].
  unfold __exit__, close, bind, self, set_stream_alive, world, pa_simple_free.
  simpl. rewrite Ha. simpl.
  rewrite (get_libpulse_simple_memo N w2 lib Hl). reflexivity.
Qed.

End WithFacts.

(** X12: a [with PaSimple(...) as pa:] block whose body only uses the
    stream (it does not close it) frees the stream exactly once on the
    way out, on the handle the constructor got, whether the body returns
    or raises; the block's result or exception is the body's.  When the
    constructor raises, the block raises the same exception and nothing
    is freed. *)
Theorem with_block_frees_the_stream_exactly_once {A : Type} (N : Native)
    (d f c r : Z) (app_name : string)
    (stream_name server_name device_name : option string)
    (ml tl pb mr fs : Z) (body : method A)
    (w w1 : World) (res : result PaSimple_obj) :
  uses_stream_only body ->
  PaSimple N d f c r app_name stream_name server_name device_name
    ml tl pb mr fs w = (res, w1) ->
  let block :=
    with_PaSimple N
      (PaSimple N d f c r app_name stream_name server_name device_name
         ml tl pb mr fs) body w in
  match res with
  | Raise e => block = (Raise e, w1) /\ frees (trace w1) = frees (trace w)
  | Return pa =>
      exists h,
        _stream pa = Some h /\
        fst block = fst (body (pa, w1)) /\
        frees (trace (snd block)) = h :: frees (trace w)
  end.
Proof.
  intros Hbody Hctor block. destruct res as [pa|e].
  - pose proof (PaSimple_returns N _ _ _ _ _ _ _ _ _ _ _ _ _ _ _ _ Hctor) as Hinit.
    destruct (init_outcome N _ _ _ _ _ _ _ _ _ _ _ _ _ _ _ _ _ Hinit)
      as (Hfr & _ & Ha & Hlib & h & Hh).
    exists h. split; [exact Hh|].
    subst block.
    rewrite (with_PaSimple_returns N _ body w w1 pa Hbody Hctor Ha Hlib).
    simpl. split; [reflexivity|].
    destruct (Hbody (pa, w1)) as (_ & Hf & _). simpl in Hf.
    rewrite Hf, Hh, Hfr. reflexivity.
  - split.
    + subst block. unfold with_PaSimple. rewrite Hctor. reflexivity.
    + exact (PaSimple_raises N _ _ _ _ _ _ _ _ _ _ _ _ _ _ _ _ Hctor).
Qed.

Lemma with_block_frees_the_stream_exactly_once_witness :
  let block :=
    with_PaSimple failing_native
      (PaSimple_defaults failing_native PA_STREAM_PLAYBACK PA_SAMPLE_S16LE 2 8000)
      (write failing_native [x01; x02] ;;; drain failing_native)
      World_initial in
  fst block = Raise (PaSimpleError "Could not play audio, error code: 5") /\
  frees (trace (snd block)) = [4096].
Proof.
  intros block.
  destruct (with_block_frees_the_stream_exactly_once failing_native
              PA_STREAM_PLAYBACK PA_SAMPLE_S16LE 2 8000 "python" None None None
              (-1) (-1) (-1) (-1) (-1)
              (write failing_native [x01; x02] ;;; drain failing_native)
              World_initial
              (snd (PaSimple_defaults failing_native PA_STREAM_PLAYBACK
                      PA_SAMPLE_S16LE 2 8000 World_initial))
              (fst (PaSimple_defaults failing_native PA_STREAM_PLAYBACK
                      PA_SAMPLE_S16LE 2 8000 World_initial)))
    as (h & Hh & Hres & Hfrees).
  - apply bind_uses_stream_only.
    + apply write_uses_stream_only.
    + intros _. apply drain_uses_stream_only.
  - reflexivity.
  - split.
    + exact Hres.
    + vm_compute in Hh. inversion Hh; subst h. exact Hfrees.
Defined.

(** ** The file adapters *)

Lemma width2format_KeyError (w : Z) :
  ~ (1 <= w <= 4) -> width2format w = Raise (KeyError w).
Proof.
  intros Hw. unfold width2format, getitem, LOOKUP_FORMAT_BY_WIDTH.
  rewrite !lookup_insert_ne by lia.
  rewrite lookup_singleton_ne by lia. reflexivity.
Qed.

Lemma format2width_KeyError (f : Z) :
  ~ (0 <= f <= 12) -> format2width f = Raise (KeyError f).
Proof.
  intros Hf. unfold format2width, getitem, LOOKUP_WIDTH_BY_FORMAT.
  unfold PA_SAMPLE_U8, PA_SAMPLE_ALAW, PA_SAMPLE_ULAW, PA_SAMPLE_S16LE,
    PA_SAMPLE_S16BE, PA_SAMPLE_FLOAT32LE, PA_SAMPLE_FLOAT32BE,
    PA_SAMPLE_S32LE, PA_SAMPLE_S32BE, PA_SAMPLE_S24LE, PA_SAMPLE_S24BE,
    PA_SAMPLE_S24_32LE, PA_SAMPLE_S24_32BE.
  rewrite !lookup_insert_ne by lia.
  rewrite lookup_singleton_ne by lia. reflexivity.
Qed.

(** X13: [play_wav] on a file whose sample width is not 1, 2, 3 or 4
    raises [KeyError] for that width before anything else happens: the
    library is not loaded and no stream is opened. *)
Theorem play_wav_unsupported_width_opens_nothing (N : Native) (F : Wave)
    (file_path : string) (wf : Wave_read) (w : World) :
  wave_open_rb F file_path = inl wf ->
  ~ (1 <= getsampwidth wf <= 4) ->
  play_wav N F file_path w = (Raised (KeyError (getsampwidth wf)), w).
Proof.
  intros Hopen Hw. unfold play_wav.
  rewrite Hopen, (width2format_KeyError _ Hw). reflexivity.
Qed.

Lemma play_wav_unsupported_width_opens_nothing_witness :
  play_wav fake_native wide_wave "a.wav" World_initial
  = (Raised (KeyError 8), World_initial).
Proof.
  apply (play_wav_unsupported_width_opens_nothing fake_native wide_wave "a.wav"
           {| getsampwidth := 8; getnchannels := 1; getframerate := 8000;
              frames := [x01; x02; x03; x04; x05; x06; x07; x08] |}).
  - reflexivity.
  - simpl. lia.
Defined.

(** X14: when [play_wav] returns, the boundary calls it added are, in
    this order: possibly the load of the library, [pa_simple_new] for a
    playback stream named "python" with the format [width2format] gives
    for the file's sample width, the file's rate and channel count and
    default buffer attributes, one [pa_simple_write] of all the file's
    frames, [pa_simple_drain], and [pa_simple_free], the last three on
    the same handle.  The byte count of the write arrives as a C int: it
    is the length of the frames when that is below 2^31, and the low 32
    bits of the length otherwise. *)
Theorem play_wav_call_sequence (N : Native) (F : Wave) (file_path : string)
    (w w' : World) :
  play_wav N F file_path w = (Returned tt, w') ->
  exists wf fmt h a t1 count,
    wave_open_rb F file_path = inl wf /\
    width2format (getsampwidth wf) = Return fmt /\
    (t1 = trace w \/ t1 = CDLL_call :: trace w) /\
    trace w'
    = [pa_simple_free_call h;
       pa_simple_drain_call h;
       pa_simple_write_call h (frames wf) count;
       pa_simple_new_call a] ++ t1 /\
    count = (Z.of_nat (length (frames wf)) + 2 ^ 31) mod 2 ^ 32 - 2 ^ 31 /\
    (Z.of_nat (length (frames wf)) < 2 ^ 31 ->
     count = Z.of_nat (length (frames wf))) /\
    a = {| arg_server_name := None; arg_app_name := "python";
           arg_direction := PA_STREAM_PLAYBACK; arg_device_name := None;
           arg_stream_name := "python";
           arg_sample_spec :=
             pa_sample_spec fmt (getframerate wf) (getnchannels wf);
           arg_buffer_attr := pa_buffer_attr (-1) (-1) (-1) (-1) (-1) |}.
Proof.
  assert (forall v, 0 <= v < 2 ^ 31 ->
                    (v + 2 ^ 31) mod 2 ^ 32 - 2 ^ 31 = v) as Hsmall.
  { intros v Hv. rewrite Z.mod_small by lia. lia. }
  unfold play_wav.
  destruct (wave_open_rb F file_path) as [wf|[cls text]] eqn:Hopen;
    [|discriminate].
  destruct (width2format (getsampwidth wf)) as [fmt|e] eqn:Hfmt;
    [|discriminate].
  destruct w as [[[rt attr]|] t].
  all: unfold with_PaSimple, PaSimple_defaults; py_unfold; py_cases.
  all: intros H; inversion H; subst; clear H.
  all: exists wf, fmt; do 3 eexists;
    exists (int_arg (Z.of_nat (length (frames wf))));
    split; [reflexivity|]; split; [exact Hfmt|].
  all: first [ split; [left; reflexivity|]; split; [reflexivity|]
             | split; [right; reflexivity|]; split; [reflexivity|] ].
  all: split; [reflexivity|].
  all: split; [intros Hlt; apply Hsmall; lia|reflexivity].
Qed.

Lemma play_wav_call_sequence_witness :
  exists w',
    play_wav fake_native fake_wave "a.wav" World_initial = (Returned tt, w') /\
    exists a,
      trace w'
      = [pa_simple_free_call 4096;
         pa_simple_drain_call 4096;
         pa_simple_write_call 4096
           [x01; x02; x03; x04; x05; x06; x07; x08] 8;
         pa_simple_new_call a;
         CDLL_call] /\
      arg_sample_spec a
      = {| ss_format := PA_SAMPLE_S16LE; ss_rate := 8000; ss_channels := 2 |}.
Proof.
  exists (snd (play_wav fake_native fake_wave "a.wav" World_initial)).
  split; [reflexivity|].
  destruct (play_wav_call_sequence fake_native fake_wave "a.wav" World_initial
              (snd (play_wav fake_native fake_wave "a.wav" World_initial))
              eq_refl)
    as (wf & fmt & h & a & t1 & count & Hopen & Hfmt & _ & Htrace & _ & _ & Ha).
  inversion Hopen; subst wf. vm_compute in Hfmt. inversion Hfmt; subst fmt.
  exists a. subst a. split.
  - vm_compute. reflexivity.
  - reflexivity.
Defined.

(** X15: once [play_wav] has opened its stream, the stream is freed
    exactly once whatever the transfer does.  If [pa_simple_write] fails,
    the write error is raised, [pa_simple_drain] is not called and the
    stream is freed; if the write succeeds and [pa_simple_drain] fails,
    the drain error is raised and the stream is freed; otherwise
    [play_wav] returns. *)
Theorem play_wav_frees_the_stream_whatever_the_transfer_does (N : Native)
    (F : Wave) (file_path : string) (wf : Wave_read) (fmt : Z)
    (w w1 : World) (pa : PaSimple_obj) :
  wave_open_rb F file_path = inl wf ->
  width2format (getsampwidth wf) = Return fmt ->
  PaSimple_defaults N PA_STREAM_PLAYBACK fmt (getnchannels wf) (getframerate wf) w
  = (Return pa, w1) ->
  let h := c_void_p (_stream pa) in
  let count := int_arg (Z.of_nat (length (frames wf))) in
  let wr := pa_simple_write_call h (frames wf) count in
  let written := lib_write N (trace w1) h (frames wf) count in
  let drained := lib_drain N (wr :: trace w1) h in
  fst (play_wav N F file_path w)
  = (if negb (fst written =? 0)
     then Raised (PaSimpleError ("Could not play audio, error code: "
                                 +:+ str (snd written)))
     else if negb (fst drained =? 0)
     then Raised (PaSimpleError ("Could not drain, error code: "
                                 +:+ str (snd drained)))
     else Returned tt) /\
  trace (snd (play_wav N F file_path w))
  = pa_simple_free_call h
    :: (if fst written =? 0 then [pa_simple_drain_call h] else [])
    ++ wr :: trace w1 /\
  frees (trace (snd (play_wav N F file_path w))) = h :: frees (trace w).
Proof.
  intros Hopen Hfmt Hctor h count wr written drained.
  unfold PaSimple_defaults in Hctor.
  pose proof (PaSimple_returns N _ _ _ _ _ _ _ _ _ _ _ _ _ _ _ _ Hctor) as Hinit.
  destruct (init_outcome N _ _ _ _ _ _ _ _ _ _ _ _ _ _ _ _ _ Hinit)
    as (Hfr & (Hd & _) & Ha & [lib Hlib] & _).
  assert (uses_stream_only (write N (frames wf) ;;; drain N)) as Hbody.
  { apply bind_uses_stream_only; [apply write_uses_stream_only|].
    intros _. apply drain_uses_stream_only. }
  unfold play_wav. rewrite Hopen, Hfmt. unfold PaSimple_defaults.
  rewrite (with_PaSimple_returns N _ _ w w1 pa Hbody Hctor Ha
             (ex_intro _ lib Hlib)).
  assert ((write N (frames wf) ;;; drain N) (pa, w1)
          = (if negb (fst written =? 0)
             then Raise (PaSimpleError ("Could not play audio, error code: "
                                        +:+ str (snd written)))
             else if negb (fst drained =? 0)
             then Raise (PaSimpleError ("Could not drain, error code: "
                                        +:+ str (snd drained)))
             else Return tt,
             (pa, {| _libpulse_simple := Some lib;
                     trace := (if fst written =? 0
                               then [pa_simple_drain_call h] else [])
                              ++ wr :: trace w1 |}))) as Hrun.
  { subst h wr written drained count. clear Hctor Hinit Hbody Hfr.
    destruct w1 as [cell t1]. simpl in Hlib. subst cell.
    destruct pa as [d0 f0 c0 r0 alive s0]. simpl in Ha, Hd. subst alive d0.
    unfold write, drain, bind, self, raise, ret, world, get_libpulse_simple,
      pa_simple_write, pa_simple_drain, log.
    simpl.
    destruct (lib_write N t1 (c_void_p s0) (frames wf)
                (int_arg (Z.of_nat (length (frames wf))))) as [ok1 e1]. simpl.
    destruct (ok1 =? 0); simpl; [|reflexivity].
    destruct (lib_drain N _ (c_void_p s0)) as [ok2 e2]. simpl.
    destruct (ok2 =? 0); reflexivity. }
  rewrite Hrun. simpl.
  split.
  { destruct (fst written =? 0); simpl; [|reflexivity].
    destruct (fst drained =? 0); reflexivity. }
  split; [reflexivity|].
  rewrite <- Hfr.
  destruct (fst written =? 0); reflexivity.
Qed.

Lemma play_wav_frees_the_stream_whatever_the_transfer_does_witness :
  fst (play_wav failing_native fake_wave "a.wav" World_initial)
  = Raised (PaSimpleError "Could not play audio, error code: 5") /\
  trace (snd (play_wav failing_native fake_wave "a.wav" World_initial))
  = pa_simple_free_call 4096
    :: pa_simple_write_call 4096 [x01; x02; x03; x04; x05; x06; x07; x08] 8
    :: trace (snd (PaSimple_defaults failing_native PA_STREAM_PLAYBACK
                     PA_SAMPLE_S16LE 2 8000 World_initial)) /\
  frees (trace (snd (play_wav failing_native fake_wave "a.wav" World_initial)))
  = [4096].
Proof.
  apply (play_wav_frees_the_stream_whatever_the_transfer_does failing_native
           fake_wave "a.wav"
           {| getsampwidth := 2; getnchannels := 2; getframerate := 8000;
              frames := [x01; x02; x03; x04; x05; x06; x07; x08] |}
           PA_SAMPLE_S16LE World_initial
           (snd (PaSimple_defaults failing_native PA_STREAM_PLAYBACK
                   PA_SAMPLE_S16LE 2 8000 World_initial))
           {| _direction := PA_STREAM_PLAYBACK; _format := PA_SAMPLE_S16LE;
              _channels := 2; _rate := 8000;
              _stream_alive := true; _stream := Some 4096 |}).
  - reflexivity.
  - reflexivity.
  - reflexivity.
Defined.



(** X17: whenever [record_wav] ends with an exception of the stream code
    (the library cannot be loaded, the stream cannot be opened, the
    format is unknown, the byte count is negative, the read fails), no
    call at all has been made on the [wave] module: a failed recording
    never creates or truncates the output file. *)
Theorem record_wav_stream_error_writes_no_file (N : Native) (F : Wave)
    (file_path : string) (len f c r : Z)
    (w w' : World) (h h' : list wave_event) (e : exn) :
  record_wav N F file_path len f c r (w, h) = (Raised e, (w', h')) ->
  h' = h.
Proof.
  unfold record_wav.
  destruct (format2width f) as [width|e0] eqn:Hwidth.
  all: destruct w as [[[rt attr]|] t].
  all: unfold with_PaSimple, PaSimple_defaults; py_unfold; py_cases.
  all: repeat (wave_case; simpl).
  all: intros H; inversion H; subst; reflexivity.
Qed.

Lemma record_wav_stream_error_writes_no_file_witness :
  fst (record_wav_defaults failing_native fake_wave "take.wav" 0
         (World_initial, []))
  = Raised (PaSimpleError "Could not record audio, error code: 5") /\
  snd (snd (record_wav_defaults failing_native fake_wave "take.wav" 0
              (World_initial, []))) = [].
Proof.
  split; [vm_compute; reflexivity|].
  apply (record_wav_stream_error_writes_no_file failing_native fake_wave
           "take.wav" 0 PA_SAMPLE_S24LE 1 41000 World_initial
           (fst (snd (record_wav_defaults failing_native fake_wave "take.wav" 0
                        (World_initial, []))))
           [] _ (PaSimpleError "Could not record audio, error code: 5")).
  vm_compute. reflexivity.
Defined.

(** X18: [record_wav] looks the format's width up only inside the
    stream's block.  With a format code outside 0..12 it therefore still
    opens the stream (if the library lets it), then raises [KeyError]
    for the format without reading anything, frees the stream on the way
    out and writes no file. *)
Theorem record_wav_unknown_format_opens_and_frees (N : Native) (F : Wave)
    (file_path : string) (len f c r : Z)
    (w w1 : World) (h : list wave_event) (pa : PaSimple_obj) :
  ~ (0 <= f <= 12) ->
  PaSimple_defaults N PA_STREAM_RECORD f c r w = (Return pa, w1) ->
  record_wav N F file_path len f c r (w, h)
  = (Raised (KeyError f),
     (log (pa_simple_free_call (c_void_p (_stream pa))) w1, h)).
Proof.
  intros Hf Hctor.
  unfold PaSimple_defaults in Hctor.
  pose proof (PaSimple_returns N _ _ _ _ _ _ _ _ _ _ _ _ _ _ _ _ Hctor) as Hinit.
  destruct (init_outcome N _ _ _ _ _ _ _ _ _ _ _ _ _ _ _ _ _ Hinit)
    as (_ & _ & Ha & Hlib & _).
  assert (uses_stream_only
            (width <- lift_result (format2width f) ;;
             read N (c * r * width * len))) as Hbody.
  { apply bind_uses_stream_only; [apply lift_result_uses_stream_only|].
    intros width. apply read_uses_stream_only. }
  unfold record_wav, PaSimple_defaults.
  rewrite (with_PaSimple_returns N _ _ w w1 pa Hbody Hctor Ha Hlib).
  unfold bind, lift_result. rewrite (format2width_KeyError f Hf). reflexivity.
Qed.

Lemma record_wav_unknown_format_opens_and_frees_witness :
  record_wav fake_native fake_wave "take.wav" 1 77 1 8000 (World_initial, [])
  = (Raised (KeyError 77),
     (log (pa_simple_free_call 4096)
        (snd (PaSimple_defaults fake_native PA_STREAM_RECORD 77 1 8000
                World_initial)), [])).
Proof.
  apply (record_wav_unknown_format_opens_and_frees fake_native fake_wave
           "take.wav" 1 77 1 8000 World_initial
           (snd (PaSimple_defaults fake_native PA_STREAM_RECORD 77 1 8000
                   World_initial)) []
           {| _direction := PA_STREAM_RECORD; _format := 77; _channels := 1;
              _rate := 8000; _stream_alive := true; _stream := Some 4096 |}).
  - lia.
  - reflexivity.
Defined.
